(** * Quickstart of a Zato environment (zato-cli, zato.cli.quickstart)

    A shallow embedding of [Quickstart.execute] from
    [zato/cli/quickstart.py] and of the [Cluster] and [Server] tables of
    [zato/common/odb/model.py]. *)

From Stdlib Require Import ZArith List String Ascii Lia DecimalN Sorted.
From stdpp Require Import base gmap strings list fin_maps.

Local Open Scope Z_scope.

(** ** Python exceptions and results *)

Inductive py_exc :=
  | ValueError
  | IndexError
  | KeyError
  | OSError
  | IOError
  | IntegrityError
  | DataError
  | OperationalError
  | ExtFailure (what : string).

(** [PyExc] are the exceptions deriving from [Exception]; the others derive
    from [BaseException] only. *)
Inductive exn :=
  | PyExc (k : py_exc)
  | KeyboardInterrupt
  | SystemExit (code : Z).

Inductive result (A : Type) :=
  | Ok (a : A)
  | Raise (e : exn).
Arguments Ok {A} a.
Arguments Raise {A} e.

(** ** Strings as Python handles them *)

Abbreviation sapp := String.append.

(** SQL [LIKE]: ['%'] matches any sequence, ['_'] any single character,
    every other character itself (case-sensitive, no escape character). *)
Fixpoint like (pat s : string) : bool :=
  match pat with
  | EmptyString => match s with EmptyString => true | String _ _ => false end
  | String c p' =>
      if Ascii.eqb c "%"%char then
        (fix any (s : string) : bool :=
           like p' s || match s with EmptyString => false | String _ s' => any s' end) s
      else
        match s with
        | EmptyString => false
        | String c' s' => (Ascii.eqb c "_"%char || Ascii.eqb c c') && like p' s'
        end
  end.

(** The ASCII letters as a case-insensitive collation compares them. *)
Definition lower_ascii (c : ascii) : ascii :=
  let n := nat_of_ascii c in
  if (65 <=? n)%nat && (n <=? 90)%nat then ascii_of_nat (n + 32) else c.

Fixpoint lower (s : string) : string :=
  match s with
  | EmptyString => EmptyString
  | String c s' => String (lower_ascii c) (lower s')
  end.

(** The trailing spaces a PAD SPACE collation ignores when it compares. *)
Fixpoint strip_pad (s : string) : string :=
  match s with
  | EmptyString => EmptyString
  | String c s' =>
      match strip_pad s' with
      | EmptyString => if Ascii.eqb c " "%char then EmptyString else String c EmptyString
      | r => String c r
      end
  end.

(** Whether the default collation of the database kind [odb_type] ignores
    letter case: MySQL's ([latin1_swedish_ci], PAD SPACE) does; PostgreSQL
    and Oracle compare strings exactly. *)
Definition case_insensitive (odb_type : string) : bool := String.eqb odb_type "mysql".

(** [s LIKE pat] under a case-insensitive collation ([ci]) or an exact one. *)
Definition like_on (ci : bool) (pat s : string) : bool :=
  if ci then like (lower pat) (lower s) else like pat s.

(** Whether a unique index holds two names for the same value. *)
Definition same_name (ci : bool) (x y : string) : bool :=
  if ci then String.eqb (lower (strip_pad x)) (lower (strip_pad y)) else String.eqb x y.

(** [s.split(sep)] for a one-character separator. *)
Fixpoint py_split (sep : ascii) (s : string) : list string :=
  match s with
  | EmptyString => [EmptyString]
  | String a s' =>
      let rest := py_split sep s' in
      if Ascii.eqb a sep then EmptyString :: rest
      else match rest with
           | x :: xs => String a x :: xs
           | [] => [String a EmptyString]
           end
  end.

Definition is_space (c : ascii) : bool :=
  match nat_of_ascii c with
  | 32%nat | 9%nat | 10%nat | 11%nat | 12%nat | 13%nat => true
  | _ => false
  end.

Fixpoint lstrip (s : string) : string :=
  match s with
  | EmptyString => EmptyString
  | String c s' => if is_space c then lstrip s' else s
  end.

Fixpoint rstrip (s : string) : string :=
  match s with
  | EmptyString => EmptyString
  | String c s' =>
      let r := rstrip s' in
      match r with
      | EmptyString => if is_space c then EmptyString else String c EmptyString
      | _ => String c r
      end
  end.

Definition digit_cons (c : ascii) : option (Decimal.uint -> Decimal.uint) :=
  match nat_of_ascii c with
  | 48%nat => Some Decimal.D0 | 49%nat => Some Decimal.D1
  | 50%nat => Some Decimal.D2 | 51%nat => Some Decimal.D3
  | 52%nat => Some Decimal.D4 | 53%nat => Some Decimal.D5
  | 54%nat => Some Decimal.D6 | 55%nat => Some Decimal.D7
  | 56%nat => Some Decimal.D8 | 57%nat => Some Decimal.D9
  | _ => None
  end.

Fixpoint uint_of_digits (s : string) : option Decimal.uint :=
  match s with
  | EmptyString => Some Decimal.Nil
  | String c s' =>
      match digit_cons c, uint_of_digits s' with
      | Some d, Some u => Some (d u)
      | _, _ => None
      end
  end.

Definition digits_value (s : string) : option Z :=
  match s with
  | EmptyString => None
  | _ => match uint_of_digits s with
         | Some u => Some (Z.of_N (N.of_uint u))
         | None => None
         end
  end.

(** [int(s)] on a string of ASCII digits: surrounding whitespace and one
    sign allowed, [ValueError] otherwise. *)
Definition py_int (s : string) : result Z :=
  let t := rstrip (lstrip s) in
  let r := match t with
           | String c r => if Ascii.eqb c "-"%char then option_map Z.opp (digits_value r)
                           else if Ascii.eqb c "+"%char then digits_value r
                           else digits_value t
           | EmptyString => None
           end in
  match r with Some z => Ok z | None => Raise (PyExc ValueError) end.

Fixpoint string_of_uint (u : Decimal.uint) : string :=
  match u with
  | Decimal.Nil => EmptyString
  | Decimal.D0 u => String "0" (string_of_uint u)
  | Decimal.D1 u => String "1" (string_of_uint u)
  | Decimal.D2 u => String "2" (string_of_uint u)
  | Decimal.D3 u => String "3" (string_of_uint u)
  | Decimal.D4 u => String "4" (string_of_uint u)
  | Decimal.D5 u => String "5" (string_of_uint u)
  | Decimal.D6 u => String "6" (string_of_uint u)
  | Decimal.D7 u => String "7" (string_of_uint u)
  | Decimal.D8 u => String "8" (string_of_uint u)
  | Decimal.D9 u => String "9" (string_of_uint u)
  end.

(** [str(n)] / ['{}'.format(n)] of a Python int. *)
Definition format_int (z : Z) : string :=
  match z with
  | Zneg p => String "-" (string_of_uint (N.to_uint (Npos p)))
  | _ => string_of_uint (N.to_uint (Z.to_N z))
  end.

(** ** The [cluster] and [server] tables (odb/model.py) *)

Record cluster := mk_cluster {
  c_id : Z;
  c_name : string;
  c_description : option string;
  c_odb_type : string;
  c_odb_host : string;
  c_odb_port : Z;
  c_odb_user : string;
  c_odb_db_name : string;
  c_odb_schema : option string;
  c_amqp_host : string;
  c_amqp_port : Z;
  c_amqp_user : string;
  c_lb_host : string;
  c_lb_agent_port : Z;
  c_sec_server_host : string;
  c_sec_server_port : Z
}.

(** [cluster_id] is [nullable=True]. *)
Record server := mk_server {
  s_id : Z;
  s_name : string;
  s_cluster_id : option Z
}.

(** [ORDER BY cluster.id DESC]: insertion sort on the primary key. *)
Fixpoint insert_desc (c : cluster) (l : list cluster) : list cluster :=
  match l with
  | [] => [c]
  | x :: xs => if c_id x <? c_id c then c :: l else x :: insert_desc c xs
  end.

Definition order_by_id_desc (l : list cluster) : list cluster :=
  fold_right insert_desc [] l.

(** The computation of [next_id], quickstart.py lines 136-148:
    [session.query(Cluster).filter(Cluster.name.like("ZatoQuickstartCluster-%"))
     .order_by(Cluster.id.desc())] under the collation [ci] of the
    database, then [[0]] (an [IndexError] is swallowed),
    [_, id = name.split("#")] and [int(id) + 1]. *)
Definition next_cluster_id (ci : bool) (clusters : list cluster) : result Z :=
  let q := order_by_id_desc
             (List.filter (fun c => like_on ci "ZatoQuickstartCluster-%" (c_name c))
                clusters) in
  match q with
  | [] => Ok 1
  | top :: _ =>
      match py_split "#"%char (c_name top) with
      | [_; id] =>
          match py_int id with
          | Ok n => Ok (n + 1)
          | Raise e => Raise e
          end
      | _ => Raise (PyExc ValueError)
      end
  end.

(** ['ZatoQuickstartCluster-#{next_id}'.format(next_id=next_id)], the
    literal prefix as a parameter. *)
Definition cluster_name_of (prefix : string) (n : Z) : string :=
  sapp prefix (sapp "-#" (format_int n)).

Definition quickstart_prefix : string := "ZatoQuickstartCluster".

Definition next_cluster_name (ci : bool) (clusters : list cluster) : result string :=
  match next_cluster_id ci clusters with
  | Ok n => Ok (cluster_name_of quickstart_prefix n)
  | Raise e => Raise e
  end.

(** Whether a character occurs in a string. *)
Fixpoint str_mem (c : ascii) (s : string) : bool :=
  match s with
  | EmptyString => false
  | String a s' => Ascii.eqb a c || str_mem c s'
  end.

(** The suffix a quickstart cluster name carries, read as the code reads it. *)
Definition name_suffix (name : string) : result Z :=
  match py_split "#"%char name with
  | [_; id] => py_int id
  | _ => Raise (PyExc ValueError)
  end.

(** ** The world a quickstart run acts on *)

(** A filesystem entry. *)
Inductive node :=
  | NDir
  | NFile (contents : string).

(** Absolute, normalised paths as their list of components
    ([os.path.abspath] output). *)
Abbreviation path := (list string).

Definition parent (p : path) : path := removelast p.
Definition basename (p : path) : string := List.last p EmptyString.

Definition fs_get (m : gmap path node) (p : path) : option node := m !! p.
Definition fs_put (p : path) (n : node) (m : gmap path node) : gmap path node :=
  <[p := n]> m.
Arguments fs_get : simpl never.
Arguments fs_put : simpl never.

Record world := mk_world {
  fs : gmap path node;
  clusters : list cluster;
  servers : list server;
  db_up : bool;
  cluster_seq : Z;  (* the next value of [cluster_id_seq] *)
  server_seq : Z    (* the next value of [server_id_seq] *)
}.

Definition set_fs (m : gmap path node) (w : world) : world :=
  mk_world m (clusters w) (servers w) (db_up w) (cluster_seq w) (server_seq w).

(** What a run does, in order. *)
Inductive copy_status := CopyOk | CopyNoSrc | CopyFailed.

Inductive event :=
  | EvPrint (msg : string)
  | EvTraceback (e : exn)
  | EvPing (odb_type : string) (ok : bool)
  | EvSubCommand (name : string) (dir : path)
  | EvMkdir (p : path) (ok : bool)
  | EvCopy (src dst : path) (st : copy_status)
  | EvQuery (ok : bool)
  | EvCommit (ok : bool)
  | EvSummary (server_dir lb_dir zato_admin_dir : path).

(** ** A state, exception and output monad *)

Definition M (A : Type) : Type := world -> result A * world * list event.

Definition ret {A} (a : A) : M A := fun w => (Ok a, w, []).
Definition throw {A} (e : exn) : M A := fun w => (Raise e, w, []).
Definition bind {A B} (m : M A) (k : A -> M B) : M B :=
  fun w =>
    match m w with
    | (Ok a, w1, l1) => let '(r, w2, l2) := k a w1 in (r, w2, l1 ++ l2)
    | (Raise e, w1, l1) => (Raise e, w1, l1)
    end.

Notation "'let!' x ':=' m 'in' k" := (bind m (fun x => k))
  (at level 200, x name, m at level 100, k at level 200).
Notation "m ;; k" := (bind m (fun _ => k)) (at level 100, right associativity).

Definition print (msg : string) : M unit := fun w => (Ok tt, w, [EvPrint msg]).

Definition of_result {A} (r : result A) : M A :=
  match r with Ok a => ret a | Raise e => throw e end.

(** A dict lookup [d[k]]. *)
Definition dict_get {V} (d : gmap string V) (k : string) : M V :=
  match d !! k with Some v => ret v | None => throw (PyExc KeyError) end.

(** The actions of other zato.cli commands: a result and a new world. *)
Definition ext (A : Type) : Type := world -> result A * world.

Definition sub_command {A} (name : string) (dir : path) (a : ext A) : M A :=
  fun w => let '(r, w') := a w in (r, w', [EvSubCommand name dir]).

(** ** Filesystem primitives *)

(** [os.mkdir(p)] *)
Definition fs_mkdir (p : path) : ext unit :=
  fun w =>
    match fs_get (fs w) p with
    | Some _ => (Raise (PyExc OSError), w)
    | None =>
        match fs_get (fs w) (parent p) with
        | Some NDir => (Ok tt, set_fs (fs_put p NDir (fs w)) w)
        | _ => (Raise (PyExc OSError), w)
        end
    end.

Definition mkdir (p : path) : M unit :=
  fun w => let '(r, w') := fs_mkdir p w in
           (r, w', [EvMkdir p (match r with Ok _ => true | Raise _ => false end)]).

(** [shutil.copy2(src, dst)]: into [dst/basename(src)] when [dst] is a
    directory; [shutil.Error] when source and target coincide, [IOError]
    when the source cannot be opened for reading or the target for
    writing; the metadata copy changes no content. *)
Definition copy2 (src dst : path) : M unit :=
  fun w =>
    let dst' := match fs_get (fs w) dst with
                | Some NDir => dst ++ [basename src]
                | _ => dst
                end in
    let fail st e := (Raise (PyExc e), w, [EvCopy src dst' st]) in
    if decide (src = dst') then fail CopyFailed (ExtFailure "shutil.Error")
    else
      match fs_get (fs w) src with
      | None => fail CopyNoSrc IOError
      | Some NDir => fail CopyFailed IOError
      | Some (NFile c) =>
          match fs_get (fs w) (parent dst'), fs_get (fs w) dst' with
          | Some NDir, Some NDir => fail CopyFailed IOError
          | Some NDir, _ => (Ok tt, set_fs (fs_put dst' (NFile c) (fs w)) w,
                             [EvCopy src dst' CopyOk])
          | _, _ => fail CopyFailed IOError
          end
      end.

(** ** Command-line arguments *)

Record args := mk_args {
  odb_type : string;
  odb_host : string;
  odb_port : Z;
  odb_user : string;
  odb_dbname : string;
  odb_schema : option string;
  rabbitmq_host : string;
  rabbitmq_port : Z;
  rabbitmq_user : string;
  cluster_name : option string;
  server_name : option string
}.

(** [args.cluster_name = "ZatoQuickstart"; args.server_name = "ZatoServer"] *)
Definition set_names (a : args) : args :=
  mk_args (odb_type a) (odb_host a) (odb_port a) (odb_user a) (odb_dbname a)
    (odb_schema a) (rabbitmq_host a) (rabbitmq_port a) (rabbitmq_user a)
    (Some "ZatoQuickstart") (Some "ZatoServer").

(** ** The ODB: engine, liveness probe, session *)

(** Modelled from the spec: [zato.common.odb.engine_def] and
    [ping_queries] (not in the sources), one entry per supported database
    kind, the probe being a trivial [SELECT]. *)
Definition ping_queries : gmap string string :=
  list_to_map [("postgresql", "SELECT 1"); ("mysql", "SELECT 1+1");
               ("oracle", "SELECT 1 FROM dual")].

(** Modelled from the spec: [ZatoCommand._get_engine] (Connect): the
    engine is created lazily and touches neither the filesystem nor the
    database. *)
Definition get_engine (a : args) : M unit := ret tt.

(** [engine.execute(ping_queries[args.odb_type])] *)
Definition ping (a : args) : M unit :=
  let! q := dict_get ping_queries (odb_type a) in
  fun w => if db_up w then (Ok tt, w, [EvPing (odb_type a) true])
           else (Raise (PyExc OperationalError), w, [EvPing (odb_type a) false]).

(** The quickstart query, executed by [top_id_cluster[0]]. *)
Definition query_clusters : M (list cluster) :=
  fun w => if db_up w then (Ok (clusters w), w, [EvQuery true])
           else (Raise (PyExc OperationalError), w, [EvQuery false]).

(** [Cluster(None, name, 'An automatically generated quickstart cluster',
    ...)]: the id is assigned by the flush. *)
Definition new_cluster (a : args) (cid : Z) (name : string) : cluster :=
  mk_cluster cid name (Some "An automatically generated quickstart cluster")
    (odb_type a) (odb_host a) (odb_port a) (odb_user a) (odb_dbname a)
    (odb_schema a) (rabbitmq_host a) (rabbitmq_port a) (rabbitmq_user a)
    "localhost" 20151 "localhost" 15100.

(** [Integer]: a 32-bit signed integer. *)
Definition int_ok (z : Z) : bool := (-2147483648 <=? z) && (z <=? 2147483647).

(** [String(n)]: at most [n] characters. *)
Definition str_ok (n : nat) (s : string) : bool := (String.length s <=? n)%nat.

Definition opt_str_ok (n : nat) (s : option string) : bool :=
  match s with Some s => str_ok n s | None => true end.

(** The values of a [cluster] row fit the types of their columns. A value
    that does not makes the [INSERT] raise [DataError] (PostgreSQL, Oracle,
    MySQL in strict mode). *)
Definition cluster_values_ok (c : cluster) : bool :=
  int_ok (c_id c) && str_ok 200 (c_name c) && opt_str_ok 1000 (c_description c) &&
  str_ok 30 (c_odb_type c) && str_ok 200 (c_odb_host c) && int_ok (c_odb_port c) &&
  str_ok 200 (c_odb_user c) && str_ok 200 (c_odb_db_name c) &&
  opt_str_ok 200 (c_odb_schema c) && str_ok 200 (c_amqp_host c) &&
  int_ok (c_amqp_port c) && str_ok 200 (c_amqp_user c) && str_ok 200 (c_lb_host c) &&
  int_ok (c_lb_agent_port c) && str_ok 200 (c_sec_server_host c) &&
  int_ok (c_sec_server_port c).

(** Oracle stores [''] as NULL, which a [nullable=False] column refuses. *)
Definition cluster_not_null_ok (kind : string) (c : cluster) : bool :=
  negb (String.eqb kind "oracle") ||
  forallb (fun v => negb (String.eqb v EmptyString))
    [c_name c; c_odb_type c; c_odb_host c; c_odb_user c; c_odb_db_name c;
     c_amqp_host c; c_amqp_user c; c_lb_host c; c_sec_server_host c].

Definition server_values_ok (s : server) : bool :=
  int_ok (s_id s) && str_ok 200 (s_name s) &&
  match s_cluster_id s with Some i => int_ok i | None => true end.

(** The checks of the two [INSERT]s of the flush, in their order, on a
    database of kind [kind]: the cluster's values, its primary key and its
    unique [name]; then the server's values, its primary key, its
    [UniqueConstraint('name')] and its foreign key [cluster_id]. Names are
    compared under the kind's collation. [None] when both rows are
    accepted. *)
Definition insert_error (kind : string) (cs : list cluster) (ss : list server)
    (c : cluster) (s : server) : option py_exc :=
  let ci := case_insensitive kind in
  if negb (cluster_values_ok c) then Some DataError
  else if negb (cluster_not_null_ok kind c) then Some IntegrityError
  else if existsb (fun c' => c_id c' =? c_id c) cs
          || existsb (fun c' => same_name ci (c_name c') (c_name c)) cs
  then Some IntegrityError
  else if negb (server_values_ok s) then Some DataError
  else if existsb (fun s' => s_id s' =? s_id s) ss
          || existsb (fun s' => same_name ci (s_name s') (s_name s)) ss
          || negb (match s_cluster_id s with
                   | Some i => existsb (fun c' => c_id c' =? i) (cs ++ [c])
                   | None => true
                   end)
  then Some IntegrityError
  else None.

(** [session.add(server); session.commit()]: the cluster is saved through
    the [Server.cluster] relationship; both rows are inserted in one
    transaction, which is rolled back on any failure. Their ids are the
    next values of [cluster_id_seq] and [server_id_seq] (on MySQL, of the
    AUTO_INCREMENT counters), which need not exceed the ids in use. The
    model leaves the sequences as they were when the transaction is rolled
    back. *)
Definition commit_cluster_server (a : args) (cname sname : string) : M unit :=
  fun w =>
    let c := new_cluster a (cluster_seq w) cname in
    let s := mk_server (server_seq w) sname (Some (c_id c)) in
    if negb (db_up w) then (Raise (PyExc OperationalError), w, [EvCommit false])
    else
      match insert_error (odb_type a) (clusters w) (servers w) c s with
      | None =>
          (Ok tt, mk_world (fs w) (clusters w ++ [c]) (servers w ++ [s]) (db_up w)
                    (cluster_seq w + 1) (server_seq w + 1), [EvCommit true])
      | Some k => (Raise (PyExc k), w, [EvCommit false])
      end.

Definition server_name_of (next_id : Z) : string :=
  sapp "ZatoQuickstartServer-(cluster-#" (sapp (format_int next_id) ")").

(** quickstart.py lines 134-160. *)
Definition setup_odb_objects (a : args) : M unit :=
  print "Setting up ODB objects.." ;;
  let! cs := query_clusters in
  let! next_id := of_result (next_cluster_id (case_insensitive (odb_type a)) cs) in
  commit_cluster_server a (cluster_name_of quickstart_prefix next_id)
    (server_name_of next_id).

(** ** The zato.cli commands the quickstart calls *)

(** [ca_create_*] commands return their format arguments as a dict. *)
Abbreviation format_args := (gmap string path).

(** The commands of zato.cli that [Quickstart.execute] invokes; their code
    is not part of the sources, only their calls are. *)
Record sub_commands := {
  create_odb : args -> ext unit;
  ca_create_ca : path -> args -> ext unit;
  ca_create_lb_agent : path -> args -> ext format_args;
  ca_create_server : path -> args -> ext format_args;
  ca_create_zato_admin : path -> args -> ext format_args;
  ca_create_security_server : path -> args -> ext format_args;
  create_security_server : path -> args -> ext unit;
  create_lb : path -> args -> ext unit;
  server_prepare_directories : path -> ext unit;
  server_execute : path -> args -> ext unit;
  create_zato_admin : path -> args -> ext unit
}.

(** ** [Quickstart.execute] *)

Section Quickstart.

Variable cmds : sub_commands.
(** [self.target_dir], made absolute. *)
Variable target_dir : path.

Definition ca_dir : path := target_dir ++ ["ca"].
Definition lb_dir : path := target_dir ++ ["load-balancer"].
Definition server_dir : path := target_dir ++ ["server"].
Definition zato_admin_dir : path := target_dir ++ ["zato-admin"].
Definition security_server_dir : path := target_dir ++ ["security-server"].

(** quickstart.py lines 60-68. *)
Definition ping_phase (a : args) : M unit :=
  get_engine a ;;
  print "
Pinging database.." ;;
  ping a ;;
  print "Ping OK
" ;;
  print "TODO: Pinging RabbitMQ.." ;;
  print "TODO: Ping OK
".

(** quickstart.py lines 79-90: the ODB, the CA and the crypto material of
    each component. *)
Definition create_crypto (a : args)
  : M (format_args * format_args * format_args * format_args) :=
  sub_command "create_odb" [] (create_odb cmds a) ;;
  mkdir ca_dir ;;
  sub_command "ca_create_ca" ca_dir (ca_create_ca cmds ca_dir a) ;;
  let! lb_format_args :=
    sub_command "ca_create_lb_agent" ca_dir (ca_create_lb_agent cmds ca_dir a) in
  let! server_format_args :=
    sub_command "ca_create_server" ca_dir (ca_create_server cmds ca_dir a) in
  let! zato_admin_format_args :=
    sub_command "ca_create_zato_admin" ca_dir (ca_create_zato_admin cmds ca_dir a) in
  let! security_server_format_args :=
    sub_command "ca_create_security_server" ca_dir
      (ca_create_security_server cmds ca_dir a) in
  ret (lb_format_args, server_format_args, zato_admin_format_args,
       security_server_format_args).

(** quickstart.py lines 92-98. *)
Definition install_security_server (a : args) (fa : format_args) : M unit :=
  sub_command "create_security_server" security_server_dir
    (create_security_server cmds security_server_dir a) ;;
  let! src := dict_get fa "priv_key_name" in
  copy2 src (security_server_dir ++ ["security-server-priv-key.pem"]) ;;
  let! src := dict_get fa "cert_name" in
  copy2 src (security_server_dir ++ ["security-server-cert.pem"]) ;;
  copy2 (ca_dir ++ ["ca-material"; "ca-cert.pem"]) (security_server_dir ++ ["ca-chain.pem"]).

(** quickstart.py lines 100-107. *)
Definition install_lb (a : args) (fa : format_args) : M unit :=
  mkdir lb_dir ;;
  sub_command "create_lb" lb_dir (create_lb cmds lb_dir a) ;;
  let! src := dict_get fa "priv_key_name" in
  copy2 src (lb_dir ++ ["config"; "lba-priv-key.pem"]) ;;
  let! src := dict_get fa "cert_name" in
  copy2 src (lb_dir ++ ["config"; "lba-cert.pem"]) ;;
  copy2 (ca_dir ++ ["ca-material"; "ca-cert.pem"]) (lb_dir ++ ["config"; "ca-chain.pem"]).

(** quickstart.py lines 109-123. *)
Definition install_server (a : args) (fa : format_args) : M unit :=
  mkdir server_dir ;;
  sub_command "server_prepare_directories" server_dir
    (server_prepare_directories cmds server_dir) ;;
  let! src := dict_get fa "priv_key_name" in
  copy2 src (server_dir ++ ["config"; "repo"; "zs-priv-key.pem"]) ;;
  let! src := dict_get fa "pub_key_name" in
  copy2 src (server_dir ++ ["config"; "repo"; "zs-pub-key.pem"]) ;;
  let! src := dict_get fa "cert_name" in
  copy2 src (server_dir ++ ["config"; "repo"; "zs-cert.pem"]) ;;
  copy2 (ca_dir ++ ["ca-material"; "ca-cert.pem"])
    (server_dir ++ ["config"; "repo"; "ca-chain.pem"]) ;;
  sub_command "server_execute" server_dir (server_execute cmds server_dir a).

(** quickstart.py lines 125-132. *)
Definition install_zato_admin (a : args) (fa : format_args) : M unit :=
  mkdir zato_admin_dir ;;
  sub_command "create_zato_admin" zato_admin_dir (create_zato_admin cmds zato_admin_dir a) ;;
  let! src := dict_get fa "priv_key_name" in
  copy2 src (zato_admin_dir ++ ["zato-admin-priv-key.pem"]) ;;
  let! src := dict_get fa "cert_name" in
  copy2 src (zato_admin_dir ++ ["zato-admin-cert.pem"]) ;;
  copy2 (ca_dir ++ ["ca-material"; "ca-cert.pem"]) (zato_admin_dir ++ ["ca-chain.pem"]).

(** quickstart.py lines 70-132: the components on disk, in the order of
    the source. *)
Definition provision (a0 : args) : M unit :=
  let a := set_names a0 in
  let! fas := create_crypto a in
  let '(lb_fa, server_fa, zato_admin_fa, security_server_fa) := fas in
  install_security_server a security_server_fa ;;
  install_lb a lb_fa ;;
  install_server a server_fa ;;
  install_zato_admin a zato_admin_fa.

(** quickstart.py lines 163-170. *)
Definition summary : M unit :=
  print "ODB objects created" ;;
  print EmptyString ;;
  print "Quickstart OK. You can now start the newly created Zato components.
" ;;
  (fun w => (Ok tt, w, [EvSummary server_dir lb_dir zato_admin_dir])).

(** The body of the [try] statement. *)
Definition body (a : args) : M unit :=
  ping_phase a ;;
  provision a ;;
  setup_odb_objects (set_names a) ;;
  summary.

(** [except Exception]: print and return; [except KeyboardInterrupt]:
    print and [sys.exit(1)]; every other exception propagates. *)
Definition handle (m : M unit) : M unit :=
  fun w =>
    match m w with
    | (Ok _, w', l) => (Ok tt, w', l)
    | (Raise (PyExc k), w', l) =>
        (Ok tt, w', l ++ [EvPrint "
An exception has been caught, quitting now!
"; EvTraceback (PyExc k); EvPrint EmptyString])
    | (Raise KeyboardInterrupt, w', l) =>
        (Raise (SystemExit 1), w', l ++ [EvPrint "
Quitting."])
    | (Raise e, w', l) => (Raise e, w', l)
    end.

Definition execute (a : args) : M unit := handle (body a).

End Quickstart.

(** Modelled from the spec: [ZatoCommand.run] and the interpreter. [run]
    calls [execute] and returns (the spec: "continues to process exit");
    a normal return exits with status 0, [SystemExit n] with [n], any
    other uncaught exception with 1. *)
Definition exit_status (r : result unit) : Z :=
  match r with
  | Ok _ => 0
  | Raise (SystemExit n) => n
  | Raise _ => 1
  end.

Definition run_main (cmds : sub_commands) (target_dir : path) (a : args) (w : world) : Z :=
  let '(r, _, _) := execute cmds target_dir a w in exit_status r.

(** ** The commands as the spec describes them *)

Definition ebind {A B} (m : ext A) (k : A -> ext B) : ext B :=
  fun w => match m w with
           | (Ok a, w1) => k a w1
           | (Raise e, w1) => (Raise e, w1)
           end.
Notation "m >>> k" := (ebind m (fun _ => k)) (at level 100, right associativity).

Definition eret {A} (a : A) : ext A := fun w => (Ok a, w).

(** Writing a new file: [IOError] when the parent is not a directory or
    the target is one. *)
Definition fs_write (p : path) (c : string) : ext unit :=
  fun w =>
    match fs_get (fs w) (parent p), fs_get (fs w) p with
    | Some NDir, Some NDir => (Raise (PyExc IOError), w)
    | Some NDir, _ => (Ok tt, set_fs (fs_put p (NFile c) (fs w)) w)
    | _, _ => (Raise (PyExc IOError), w)
    end.

Definition fs_require_file (p : path) : ext unit :=
  fun w => match fs_get (fs w) p with
           | Some (NFile _) => (Ok tt, w)
           | _ => (Raise (PyExc IOError), w)
           end.

(** Modelled from the spec (4.2, CreateAuthority): the root key and
    certificate under [ca-material] of the CA directory, and the output
    directories of the issued identities. *)
Definition spec_ca_create_ca (d : path) (a : args) : ext unit :=
  fs_mkdir (d ++ ["ca-material"]) >>>
  fs_write (d ++ ["ca-material"; "ca-key.pem"]) "ca private key" >>>
  fs_write (d ++ ["ca-material"; "ca-cert.pem"]) "ca certificate" >>>
  fs_mkdir (d ++ ["out-priv"]) >>>
  fs_mkdir (d ++ ["out-pub"]) >>>
  fs_mkdir (d ++ ["out-cert"]).

(** Modelled from the spec (4.2, IssueComponentIdentity): a key pair and a
    certificate signed by the authority, which must exist; the paths are
    returned as the command's format arguments. *)
Definition spec_ca_issue (role : string) (d : path) (a : args) : ext format_args :=
  let priv := d ++ ["out-priv"; sapp role "-priv.pem"] in
  let pub := d ++ ["out-pub"; sapp role "-pub.pem"] in
  let cert := d ++ ["out-cert"; sapp role "-cert.pem"] in
  fs_require_file (d ++ ["ca-material"; "ca-cert.pem"]) >>>
  fs_write priv (sapp role " private key") >>>
  fs_write pub (sapp role " public key") >>>
  fs_write cert (sapp role " certificate") >>>
  eret (list_to_map [("priv_key_name", priv); ("pub_key_name", pub);
                     ("cert_name", cert)]).

(** Modelled from the spec (4.3): CreateRoleDirectory and
    InstallRoleConfiguration of the security server. *)
Definition spec_create_security_server (d : path) (a : args) : ext unit :=
  fs_mkdir d >>> fs_write (d ++ ["security-server.conf"]) "security server config".

(** Modelled from the spec (4.3): the load-balancer's configuration,
    under [config] of its (already created) directory. *)
Definition spec_create_lb (d : path) (a : args) : ext unit :=
  fs_mkdir (d ++ ["config"]) >>>
  fs_write (d ++ ["config"; "lb-agent.conf"]) "load-balancer config".

(** Modelled from the spec (4.3): the server's nested configuration
    repository [config/repo]. *)
Definition spec_prepare_directories (d : path) : ext unit :=
  fs_mkdir (d ++ ["config"]) >>> fs_mkdir (d ++ ["config"; "repo"]).

(** Modelled from the spec (4.3) and the comment of quickstart.py line 113:
    the server's configuration, which expects its public key in place. *)
Definition spec_server_execute (d : path) (a : args) : ext unit :=
  fs_require_file (d ++ ["config"; "repo"; "zs-pub-key.pem"]) >>>
  fs_write (d ++ ["config"; "repo"; "server.conf"]) "server config".

(** Modelled from the spec (4.3): the web console's configuration in its
    (already created) directory. *)
Definition spec_create_zato_admin (d : path) (a : args) : ext unit :=
  fs_write (d ++ ["zato-admin.conf"]) "web admin config".

(** Modelled from the spec: [CreateODB] makes sure the schema exists; it
    writes no Cluster or Server row and no file. *)
Definition spec_create_odb (a : args) : ext unit := eret tt.

Definition spec_cmds : sub_commands := {|
  create_odb := spec_create_odb;
  ca_create_ca := spec_ca_create_ca;
  ca_create_lb_agent := spec_ca_issue "lb-agent";
  ca_create_server := spec_ca_issue "server";
  ca_create_zato_admin := spec_ca_issue "zato-admin";
  ca_create_security_server := spec_ca_issue "security-server";
  create_security_server := spec_create_security_server;
  create_lb := spec_create_lb;
  server_prepare_directories := spec_prepare_directories;
  server_execute := spec_server_execute;
  create_zato_admin := spec_create_zato_admin
|}.

(** A [cluster] row with the given id and name and the quickstart's
    other values. *)
Definition example_cluster (i : Z) (name : string) : cluster :=
  mk_cluster i name None "postgresql" "localhost" 5432 "zato" "zato" None
    "localhost" 5672 "guest" "localhost" 20151 "localhost" 15100.

(** The rows the quickstart query returns. *)
Definition is_candidate (ci : bool) (c : cluster) : bool :=
  like_on ci "ZatoQuickstartCluster-%" (c_name c).

(** ** Properties of runs *)

#[global] Instance node_eq_dec : EqDecision node.
Proof. solve_decision. Defined.

Definition res_of {A} (o : result A * world * list event) : result A := fst (fst o).
Definition world_of {A} (o : result A * world * list event) : world := snd (fst o).
Definition log_of {A} (o : result A * world * list event) : list event := snd o.

(** Console output, as opposed to the provisioning steps. *)
Definition is_output (ev : event) : bool :=
  match ev with
  | EvPrint _ | EvTraceback _ | EvSummary _ _ _ => true
  | _ => false
  end.

Definition same_rows (w w' : world) : Prop :=
  clusters w' = clusters w /\ servers w' = servers w.

Definition keeps_dirs (w w' : world) : Prop :=
  forall p, fs_get (fs w) p = Some NDir -> fs_get (fs w') p = Some NDir.

(** The filesystem changes only at paths satisfying [own]. *)
Definition changes_only (own : path -> Prop) (w w' : world) : Prop :=
  forall p, fs_get (fs w') p <> fs_get (fs w) p -> own p.

(** The frame of a step: no row added, no directory removed, changes
    only where [own] allows. *)
Definition frame (own : path -> Prop) (w w' : world) : Prop :=
  same_rows w w' /\ keeps_dirs w w' /\ changes_only own w w'.

Definition under (d : option path) (p : path) : Prop :=
  match d with Some d => d `prefix_of` p | None => False end.

(** A zato.cli command that adds no row, removes no directory and writes
    only below its own directory [d] ([None]: nowhere). *)
Definition ext_frame {A} (d : option path) (e : ext A) : Prop :=
  forall w, frame (under d) w (snd (e w)).

Record well_behaved (cmds : sub_commands) : Prop := {
  wb_create_odb : forall a, ext_frame None (create_odb cmds a);
  wb_ca_create_ca : forall d a, ext_frame (Some d) (ca_create_ca cmds d a);
  wb_ca_create_lb_agent : forall d a, ext_frame (Some d) (ca_create_lb_agent cmds d a);
  wb_ca_create_server : forall d a, ext_frame (Some d) (ca_create_server cmds d a);
  wb_ca_create_zato_admin : forall d a, ext_frame (Some d) (ca_create_zato_admin cmds d a);
  wb_ca_create_security_server :
    forall d a, ext_frame (Some d) (ca_create_security_server cmds d a);
  wb_create_security_server : forall d a, ext_frame (Some d) (create_security_server cmds d a);
  wb_create_security_server_dir : forall d a w,
    fst (create_security_server cmds d a w) = Ok tt ->
    fs_get (fs (snd (create_security_server cmds d a w))) d = Some NDir;
  wb_create_lb : forall d a, ext_frame (Some d) (create_lb cmds d a);
  wb_server_prepare_directories : forall d, ext_frame (Some d) (server_prepare_directories cmds d);
  wb_server_execute : forall d a, ext_frame (Some d) (server_execute cmds d a);
  wb_create_zato_admin : forall d a, ext_frame (Some d) (create_zato_admin cmds d a)
}.

(** Invariants of a computation: a relation between the world before and
    after, a property of every logged event. *)
Definition preserves {A} (R : world -> world -> Prop) (m : M A) : Prop :=
  forall w, R w (world_of (m w)).

Definition log_all {A} (P : event -> Prop) (m : M A) : Prop :=
  forall w, Forall P (log_of (m w)).

(** A copy whose target is not inside [q]. *)
Definition copy_avoids (q : path) (ev : event) : Prop :=
  match ev with EvCopy _ dst _ => ~ q `prefix_of` dst | _ => True end.

(** In a log, every copy into [q] comes after the event [ev]. *)
Definition before_copies_into (q : path) (ev : event) (l : list event) : Prop :=
  Forall (copy_avoids q) l \/
  exists l1 l2, l = l1 ++ ev :: l2 /\ Forall (copy_avoids q) l1.

(** The result is [Ok] only in worlds satisfying [Q]. *)
Definition ensures {A} (Q : world -> Prop) (m : M A) : Prop :=
  forall w x, res_of (m w) = Ok x -> Q (world_of (m w)).

Definition stable {A} (Q : world -> Prop) (m : M A) : Prop :=
  forall w, Q w -> Q (world_of (m w)).

(** A copy whose source is missing ends the computation with [IOError]. *)
Definition fails_on_missing_source {A} (m : M A) : Prop :=
  forall w src dst, In (EvCopy src dst CopyNoSrc) (log_of (m w)) ->
                    res_of (m w) = Raise (PyExc IOError).

(** The paths below the role directories made before the web console's. *)
Definition before_zato_admin (t p : path) : Prop :=
  ca_dir t `prefix_of` p \/ security_server_dir t `prefix_of` p \/
  lb_dir t `prefix_of` p \/ server_dir t `prefix_of` p.

(** The constraints of the schema on the [cluster] and [server] tables:
    primary keys, [cluster.name] unique, [UniqueConstraint('name')] on
    [server], and the nullable foreign key [server.cluster_id]. *)
Definition db_ok (cs : list cluster) (ss : list server) : Prop :=
  NoDup (map c_id cs) /\ NoDup (map c_name cs) /\
  NoDup (map s_id ss) /\ NoDup (map s_name ss) /\
  Forall (fun s => match s_cluster_id s with
                   | Some i => In i (map c_id cs)
                   | None => True
                   end) ss.

(** ** Example inputs *)

Definition example_args : args :=
  mk_args "postgresql" "localhost" 5432 "zato" "zato" None "localhost" 5672 "guest"
    None None.

Definition example_target : path := ["home"; "zato"; "qs"].

(** A Server row already holding the name the first quickstart run
    gives its server, attached to no cluster. *)
Definition example_taken_server : server :=
  mk_server 7 "ZatoQuickstartServer-(cluster-#1)" None.

(** A filesystem holding only the given directories. *)
Definition dirs_only (ds : list path) : gmap path node :=
  list_to_map (map (fun p => (p, NDir)) ds).

Definition example_world (cs : list cluster) (ss : list server) (up : bool) : world :=
  mk_world (dirs_only [[]; ["home"]; ["home"; "zato"]; example_target]) cs ss up 1 1.

(** The identity of the server as [ca_create_server] would report it when
    its private key was never written: the three paths are returned, the
    private key file is missing. *)
Definition issue_without_priv_key (role : string) (d : path) (a : args) : ext format_args :=
  let priv := d ++ ["out-priv"; sapp role "-priv.pem"] in
  let pub := d ++ ["out-pub"; sapp role "-pub.pem"] in
  let cert := d ++ ["out-cert"; sapp role "-cert.pem"] in
  fs_require_file (d ++ ["ca-material"; "ca-cert.pem"]) >>>
  fs_write pub (sapp role " public key") >>>
  fs_write cert (sapp role " certificate") >>>
  eret (list_to_map [("priv_key_name", priv); ("pub_key_name", pub);
                     ("cert_name", cert)]).

Definition cmds_server_key_lost : sub_commands := {|
  create_odb := spec_create_odb;
  ca_create_ca := spec_ca_create_ca;
  ca_create_lb_agent := spec_ca_issue "lb-agent";
  ca_create_server := issue_without_priv_key "server";
  ca_create_zato_admin := spec_ca_issue "zato-admin";
  ca_create_security_server := spec_ca_issue "security-server";
  create_security_server := spec_create_security_server;
  create_lb := spec_create_lb;
  server_prepare_directories := spec_prepare_directories;
  server_execute := spec_server_execute;
  create_zato_admin := spec_create_zato_admin
|}.

(** [W], seen from the directory [t], is [R]: the entries of [W] at and
    below [t] are those of [R] at and below the root, and both have the
    same database. *)
Definition seen_from (t : path) (W R : world) : Prop :=
  (forall l, fs_get (fs W) (t ++ l) = fs_get (fs R) l) /\ set_fs (fs W) R = W.

Definition res_rel {A B} (VR : A -> B -> Prop) (r1 : result A) (r2 : result B) : Prop :=
  match r1, r2 with
  | Ok x, Ok y => VR x y
  | Raise e1, Raise e2 => e1 = e2
  | _, _ => False
  end.

(** Two computations that behave alike on worlds related by [seen_from t]. *)
Definition sim_M {A B} (t : path) (VR : A -> B -> Prop) (mA : M A) (mB : M B) : Prop :=
  forall W R, seen_from t W R ->
    res_rel VR (res_of (mA W)) (res_of (mB R)) /\
    seen_from t (world_of (mA W)) (world_of (mB R)).

Definition sim_ext {A B} (t : path) (VR : A -> B -> Prop) (eA : ext A) (eB : ext B) : Prop :=
  forall W R, seen_from t W R ->
    res_rel VR (fst (eA W)) (fst (eB R)) /\ seen_from t (snd (eA W)) (snd (eB R)).

(** A path below [t] and the same path relative to [t]. *)
Definition path_rel (t : path) (pA pB : path) : Prop := pA = t ++ pB /\ pB <> [].

Definition fa_rel (t : path) (fA fB : format_args) : Prop :=
  forall k, match fA !! k, fB !! k with
            | Some pA, Some pB => path_rel t pA pB
            | None, None => True
            | _, _ => False
            end.

Definition fa4_rel (t : path) (x y : format_args * format_args * format_args * format_args)
  : Prop :=
  let '(x1, x2, x3, x4) := x in
  let '(y1, y2, y3, y4) := y in
  fa_rel t x1 y1 /\ fa_rel t x2 y2 /\ fa_rel t x3 y3 /\ fa_rel t x4 y4.

(** The filesystem after the components of a run, with the commands as
    the spec describes them, from a filesystem that is one empty
    directory used as the target. *)
Definition fresh_final_fs : gmap path node :=
  fs (world_of (provision spec_cmds [] example_args
                  (set_fs {[ [] := NDir ]} (example_world [] [] true)))).
Arguments fresh_final_fs : simpl never.

(** The names of the entries directly inside [d]. *)
Definition child_names (d : path) (m : gmap path node) : list string :=
  omap (fun kv : path * node =>
          if decide (kv.1 <> [] /\ parent kv.1 = d) then Some (basename kv.1) else None)
       (map_to_list m).

(** The zato.cli commands a log records, in order, with their directories. *)
Definition subcommand_calls (l : list event) : list (string * path) :=
  omap (fun ev => match ev with EvSubCommand n d => Some (n, d) | _ => None end) l.

(** The zato.cli commands [m] invokes form an initial part of [L], all of
    [L] when [m] returns. *)
Definition calls_within {A} (L : list (string * path)) (m : M A) : Prop :=
  forall w, subcommand_calls (log_of (m w)) `prefix_of` L /\
            (forall x, res_of (m w) = Ok x -> subcommand_calls (log_of (m w)) = L).

(** The commands as the spec describes them, but with a [create_odb] that
    ends the process: [sys.exit(2)] raises [SystemExit(2)] and changes
    nothing. *)
Definition cmds_odb_exits : sub_commands := {|
  create_odb := fun _ w => (Raise (SystemExit 2), w);
  ca_create_ca := spec_ca_create_ca;
  ca_create_lb_agent := spec_ca_issue "lb-agent";
  ca_create_server := spec_ca_issue "server";
  ca_create_zato_admin := spec_ca_issue "zato-admin";
  ca_create_security_server := spec_ca_issue "security-server";
  create_security_server := spec_create_security_server;
  create_lb := spec_create_lb;
  server_prepare_directories := spec_prepare_directories;
  server_execute := spec_server_execute;
  create_zato_admin := spec_create_zato_admin
|}.

(** The example target after an earlier run left its [ca] directory. *)
Definition example_used_world : world :=
  mk_world (dirs_only [[]; ["home"]; ["home"; "zato"]; example_target;
                       example_target ++ ["ca"]]) [] [] true 1 1.

(** ** Lemmas on the string helpers *)

Module StringFacts.

Lemma sapp_cons (x : ascii) (a b : string) : sapp (String x a) b = String x (sapp a b).
Proof. reflexivity. Qed.

Lemma sapp_nil (b : string) : sapp EmptyString b = b.
Proof. reflexivity. Qed.

Lemma sapp_assoc (a b c : string) : sapp (sapp a b) c = sapp a (sapp b c).
Proof. induction a as [|x a IH]; [done|]. by rewrite !sapp_cons, IH. Qed.

Lemma like_pct (s : string) : like "%" s = true.
Proof. induction s as [|c s IH]; [reflexivity | exact IH]. Qed.

Lemma like_pct_here (p t : string) :
  like p t = true -> like (String "%" p) t = true.
Proof. intros H. destruct t; cbn [like]; simpl; rewrite H; reflexivity. Qed.

Lemma like_pct_skip (p t : string) (x : ascii) :
  like (String "%" p) t = true -> like (String "%" p) (String x t) = true.
Proof.
  intros H. change (like (String "%" p) (String x t))
    with (like p (String x t) || like (String "%" p) t).
  by rewrite H, orb_true_r.
Qed.

(** A pattern that is a prefix of the name, followed by a pattern that
    matches the rest, matches the name. *)
Lemma like_app (p q s : string) :
  like q s = true -> like (sapp p q) (sapp p s) = true.
Proof.
  intros Hq. induction p as [|c p IH]; [exact Hq|].
  rewrite !sapp_cons.
  destruct (Ascii.eqb c "%"%char) eqn:E.
  - apply Ascii.eqb_eq in E; subst. apply like_pct_skip, like_pct_here, IH.
  - cbn [like]. rewrite E, Ascii.eqb_refl, orb_true_r, IH. done.
Qed.

Lemma py_split_no_sep (c : ascii) (s : string) :
  str_mem c s = false -> py_split c s = [s].
Proof.
  induction s as [|a s IH]; simpl; [done|].
  intros H. apply orb_false_iff in H as [H1 H2].
  rewrite H1, IH by done. done.
Qed.

Lemma py_split_app (c : ascii) (s1 s2 : string) :
  str_mem c s1 = false ->
  py_split c (sapp s1 (String c s2)) = s1 :: py_split c s2.
Proof.
  induction s1 as [|a s1 IH]; intros H.
  - rewrite sapp_nil. simpl. by rewrite Ascii.eqb_refl.
  - rewrite sapp_cons. simpl in *. apply orb_false_iff in H as [H1 H2].
    rewrite H1, IH by done. done.
Qed.

Lemma uint_of_digits_string (u : Decimal.uint) :
  uint_of_digits (string_of_uint u) = Some u.
Proof. induction u; simpl; try rewrite IHu; reflexivity. Qed.

Lemma str_mem_string_of_uint (c : ascii) (u : Decimal.uint) :
  digit_cons c = None -> str_mem c (string_of_uint u) = false.
Proof.
  intros Hc. induction u; cbn [string_of_uint str_mem]; try done;
    rewrite IHu, orb_false_r; apply Ascii.eqb_neq; intros <-; discriminate.
Qed.

Lemma rstrip_string_of_uint (u : Decimal.uint) :
  rstrip (string_of_uint u) = string_of_uint u.
Proof.
  induction u; simpl; try done; rewrite IHu; destruct (string_of_uint u); done.
Qed.

Lemma to_uint_not_nil (n : N) : N.to_uint n <> Decimal.Nil.
Proof.
  intros H. pose proof (DecimalN.Unsigned.of_to n) as E. rewrite H in E.
  simpl in E. subst n. discriminate.
Qed.

Lemma string_of_to_uint (n : N) :
  exists d r, digit_cons d <> None /\ string_of_uint (N.to_uint n) = String d r.
Proof.
  pose proof (to_uint_not_nil n).
  destruct (N.to_uint n); simpl; try done; eexists _, _; split; try reflexivity; discriminate.
Qed.

Lemma digit_not_space (c : ascii) : digit_cons c <> None -> is_space c = false.
Proof. destruct c as [[] [] [] [] [] [] [] []]; vm_compute; congruence. Qed.

Lemma digits_value_to_uint (n : N) :
  digits_value (string_of_uint (N.to_uint n)) = Some (Z.of_N n).
Proof.
  destruct (string_of_to_uint n) as (d & r & _ & E).
  unfold digits_value. rewrite E, <- E, uint_of_digits_string, DecimalN.Unsigned.of_to.
  reflexivity.
Qed.

Lemma py_int_to_uint (n : N) :
  py_int (string_of_uint (N.to_uint n)) = Ok (Z.of_N n).
Proof.
  destruct (string_of_to_uint n) as (d & r & Hd & E).
  unfold py_int. rewrite E. cbn [lstrip]. rewrite (digit_not_space d Hd).
  rewrite <- E, rstrip_string_of_uint, E.
  destruct (Ascii.eqb_spec d "-"%char) as [->|_]; [done|].
  destruct (Ascii.eqb_spec d "+"%char) as [->|_]; [done|].
  rewrite <- E, digits_value_to_uint. reflexivity.
Qed.

(** [int(str(n)) == n] *)
Lemma py_int_format_int (z : Z) : py_int (format_int z) = Ok z.
Proof.
  destruct z as [|p|p].
  - apply (py_int_to_uint 0%N).
  - apply (py_int_to_uint (Npos p)).
  - unfold format_int, py_int.
    assert (Hr : rstrip (lstrip (String "-" (string_of_uint (N.to_uint (N.pos p)))))
                 = String "-" (string_of_uint (N.to_uint (N.pos p)))).
    { change (lstrip (String "-" (string_of_uint (N.to_uint (N.pos p)))))
        with (String "-" (string_of_uint (N.to_uint (N.pos p)))).
      change (rstrip (String "-" (string_of_uint (N.to_uint (N.pos p)))))
        with (let r := rstrip (string_of_uint (N.to_uint (N.pos p))) in
              match r with
              | EmptyString => if is_space "-" then EmptyString else String "-" EmptyString
              | String _ _ => String "-" r end).
      rewrite rstrip_string_of_uint.
      destruct (string_of_to_uint (Npos p)) as (d & r & Hd & E). cbv zeta. by rewrite E. }
    rewrite Hr. rewrite Ascii.eqb_refl, digits_value_to_uint. reflexivity.
Qed.

Lemma str_mem_format_int (z : Z) : str_mem "#" (format_int z) = false.
Proof.
  destruct z as [|p|p]; unfold format_int;
    try (apply str_mem_string_of_uint; reflexivity).
Qed.

End StringFacts.

(** ** The next cluster name *)

Module NextName.
Import StringFacts.

Lemma str_mem_app (c : ascii) (a b : string) :
  str_mem c (sapp a b) = str_mem c a || str_mem c b.
Proof.
  induction a as [|x a IH]; [done|]. rewrite sapp_cons. simpl. rewrite IH.
  by rewrite orb_assoc.
Qed.

Lemma filter_all {A} (f : A -> bool) (l : list A) :
  (forall x, In x l -> f x = true) -> List.filter f l = l.
Proof.
  induction l as [|x l IH]; intros H; simpl; [done|].
  rewrite H by (left; done). f_equal. apply IH. intros y Hy. apply H. by right.
Qed.

Lemma insert_desc_smallest (x : cluster) (l : list cluster) :
  Forall (fun y => c_id x < c_id y) l -> insert_desc x l = l ++ [x].
Proof.
  induction l as [|y l IH]; intros H; simpl; [done|].
  inversion H as [|? ? Hy Hl]; subst.
  destruct (c_id y <? c_id x) eqn:E; [apply Z.ltb_lt in E; lia|].
  by rewrite IH.
Qed.

Lemma order_by_id_desc_sorted (l : list cluster) :
  StronglySorted (fun a b => c_id a < c_id b) l -> order_by_id_desc l = rev l.
Proof.
  induction l as [|x l IH]; intros H; [done|].
  inversion H as [|? ? Hs Hf]; subst. unfold order_by_id_desc in *. simpl.
  rewrite IH by done. apply insert_desc_smallest.
  apply Forall_rev. exact Hf.
Qed.

Lemma sorted_ids_strongly (l : list cluster) :
  Sorted Z.lt (map c_id l) -> StronglySorted (fun a b => c_id a < c_id b) l.
Proof.
  intros H. apply Sorted_StronglySorted in H; [|intros ? ? ?; lia].
  induction l as [|x l IH]; [constructor|].
  simpl in H. inversion H as [|? ? Hs Hf]; subst. constructor; [by apply IH|].
  change (Forall (Z.lt (c_id x)) (map c_id l)) in Hf.
  apply Forall_forall. intros y Hy. rewrite Forall_forall in Hf. apply Hf. apply list_elem_of_In, in_map, list_elem_of_In, Hy.
Qed.

Lemma like_cluster_name (P : string) (n : Z) :
  like (sapp P "-%") (cluster_name_of P n) = true.
Proof. unfold cluster_name_of. apply like_app. apply like_pct. Qed.

Lemma lower_app (a b : string) : lower (sapp a b) = sapp (lower a) (lower b).
Proof. induction a as [|x a IH]; [done|]. simpl. by rewrite IH. Qed.

(** Every name the quickstart gives a cluster matches its pattern, under
    either collation. *)
Lemma like_on_cluster_name (ci : bool) (n : Z) :
  like_on ci "ZatoQuickstartCluster-%" (cluster_name_of quickstart_prefix n) = true.
Proof.
  destruct ci; unfold like_on.
  - unfold cluster_name_of. rewrite !lower_app.
    change (lower "ZatoQuickstartCluster-%") with (sapp "zatoquickstartcluster-" "%").
    change (sapp (lower quickstart_prefix) (sapp (lower "-#") (lower (format_int n))))
      with (sapp "zatoquickstartcluster-" (String "#" (lower (format_int n)))).
    apply like_app, like_pct.
  - exact (like_cluster_name quickstart_prefix n).
Qed.

Lemma split_cluster_name (P : string) (n : Z) :
  str_mem "#" P = false ->
  py_split "#" (cluster_name_of P n) = [sapp P "-"; format_int n].
Proof.
  intros HP. unfold cluster_name_of.
  replace (sapp "-#" (format_int n)) with (sapp "-" (String "#" (format_int n))) by done.
  rewrite <- sapp_assoc, py_split_app.
  - by rewrite py_split_no_sep by apply str_mem_format_int.
  - by rewrite str_mem_app, HP.
Qed.

Lemma next_cluster_id_none (ci : bool) (rows : list cluster) :
  Forall (fun c => is_candidate ci c = false) rows ->
  next_cluster_id ci rows = Ok 1.
Proof.
  intros H. unfold next_cluster_id.
  replace (List.filter _ rows) with (@nil cluster); [done|].
  induction rows as [|x rows IH]; [done|].
  inversion H; subst. unfold is_candidate in H2. simpl. by rewrite H2, <- IH.
Qed.

(** With a prefix free of wildcards, [LIKE prefix%] is a prefix test. *)
Lemma like_literal_prefix (p s : string) :
  str_mem "%" p = false -> str_mem "_" p = false ->
  like (sapp p "%") s = true <-> exists t, s = sapp p t.
Proof.
  revert s. induction p as [|c p IH]; intros s H1 H2.
  - split; [intros _; by exists s | intros _; apply StringFacts.like_pct].
  - simpl in H1, H2. apply orb_false_iff in H1 as [Hc1 H1].
    apply orb_false_iff in H2 as [Hc2 H2].
    rewrite StringFacts.sapp_cons. cbn [like]. rewrite Hc1.
    destruct s as [|c' s].
    + split; [discriminate | intros [t Ht]; discriminate].
    + rewrite Hc2. simpl. split.
      * intros H. apply andb_true_iff in H as [Hc H].
        apply Ascii.eqb_eq in Hc as <-. apply IH in H as [t ->]; [|done|done].
        exists t. by rewrite StringFacts.sapp_cons.
      * intros [t Ht]. rewrite StringFacts.sapp_cons in Ht. injection Ht as <- ->.
        rewrite Ascii.eqb_refl. simpl. apply IH; [done|done|]. by exists t.
Qed.

End NextName.

(** ** C1: the next cluster name after [ZatoQuickstartCluster-#1] ... [-#N] *)

(** C1 (as amended): the code's one prefix is [ZatoQuickstartCluster].
    Under either collation, a store whose Cluster rows are exactly
    [ZatoQuickstartCluster-#1] ... [ZatoQuickstartCluster-#N], in
    increasing id order, yields [ZatoQuickstartCluster-#(N+1)]; a store
    without a cluster matching [ZatoQuickstartCluster-%] yields
    [ZatoQuickstartCluster-#1]; one row [ZatoQuickstartCluster-#3] yields
    [ZatoQuickstartCluster-#4]. *)
Theorem next_cluster_name_after_sequence :
  (forall (ci : bool) (rows : list cluster),
     Sorted Z.lt (map c_id rows) ->
     map c_name rows =
       map (fun k => cluster_name_of quickstart_prefix (Z.of_nat k)) (seq 1 (length rows)) ->
     next_cluster_name ci rows =
       Ok (cluster_name_of quickstart_prefix (Z.of_nat (S (length rows))))) /\
  (forall (ci : bool) (rows : list cluster),
     Forall (fun c => is_candidate ci c = false) rows ->
     next_cluster_name ci rows = Ok (cluster_name_of quickstart_prefix 1)) /\
  (forall (ci : bool) (r : cluster), c_name r = "ZatoQuickstartCluster-#3" ->
     next_cluster_name ci [r] = Ok "ZatoQuickstartCluster-#4").
Proof.
  split; [|split].
  - intros ci rows Hsort Hnames.
    unfold next_cluster_name, next_cluster_id.
    rewrite NextName.filter_all.
    2:{ intros c Hc. apply (in_map c_name) in Hc. rewrite Hnames in Hc.
        apply in_map_iff in Hc as (k & <- & _). apply NextName.like_on_cluster_name. }
    rewrite NextName.order_by_id_desc_sorted by (by apply NextName.sorted_ids_strongly).
    destruct rows as [|r0 rows0] using rev_ind; [done|]. clear IHrows0.
    rewrite rev_app_distr. simpl.
    rewrite length_app in Hnames |- *. simpl in Hnames |- *.
    replace (length rows0 + 1)%nat with (S (length rows0)) in Hnames |- * by lia.
    rewrite seq_S, map_app, map_app in Hnames. simpl in Hnames.
    apply app_inj_tail in Hnames as [_ ->].
    rewrite NextName.split_cluster_name by reflexivity.
    rewrite StringFacts.py_int_format_int. do 2 f_equal. lia.
  - intros ci rows H. unfold next_cluster_name.
    by rewrite NextName.next_cluster_id_none.
  - intros ci r Hr. destruct r; simpl in Hr; subst. destruct ci; vm_compute; reflexivity.
Qed.

(** C1 (as stated, for every prefix): the code has no prefix parameter.
    With [P = Foo] and the one row [Foo-#1], which meets the claim's
    hypotheses for [P], the computation still looks for
    [ZatoQuickstartCluster-%] and gives [ZatoQuickstartCluster-#1], not
    [Foo-#2]. *)
Lemma next_cluster_name_other_prefix :
  let rows := [example_cluster 1 "Foo-#1"] in
  Sorted Z.lt (map c_id rows) /\
  map c_name rows = map (fun k => cluster_name_of "Foo" (Z.of_nat k)) (seq 1 (length rows)) /\
  forall ci, next_cluster_name ci rows = Ok "ZatoQuickstartCluster-#1" /\
             next_cluster_name ci rows <> Ok (cluster_name_of "Foo" (Z.of_nat (S (length rows)))).
Proof.
  simpl. split; [repeat constructor|]. split; [reflexivity|].
  intros []; (split; [vm_compute; reflexivity | vm_compute; congruence]).
Qed.

(** C1: two quickstart clusters [#1] and [#2] give [#3]. *)
Lemma next_cluster_name_after_sequence_witness :
  next_cluster_name false
    [example_cluster 1 "ZatoQuickstartCluster-#1"; example_cluster 2 "ZatoQuickstartCluster-#2"]
  = Ok (cluster_name_of quickstart_prefix 3).
Proof.
  apply (proj1 next_cluster_name_after_sequence).
  - repeat constructor; simpl; lia.
  - vm_compute. reflexivity.
Defined.

(** ** C2: the candidate is the row with the highest id *)

(** C2: for a store whose matching names are not monotonic in the id
    order, the computed next suffix is not above the largest suffix
    present: rows [#5] (id 1) and [#2] (id 2) give [3], under either
    collation. *)
Theorem next_cluster_id_regresses :
  exists (rows : list cluster) (r1 r2 : cluster) (m1 m2 n : Z),
    In r1 rows /\ In r2 rows /\
    like (sapp quickstart_prefix "-%") (c_name r1) = true /\
    like (sapp quickstart_prefix "-%") (c_name r2) = true /\
    c_id r1 < c_id r2 /\
    name_suffix (c_name r1) = Ok m1 /\ name_suffix (c_name r2) = Ok m2 /\ m2 < m1 /\
    (forall ci, next_cluster_id ci rows = Ok n) /\ n <= m1.
Proof.
  exists [example_cluster 1 "ZatoQuickstartCluster-#5";
          example_cluster 2 "ZatoQuickstartCluster-#2"].
  exists (example_cluster 1 "ZatoQuickstartCluster-#5"),
         (example_cluster 2 "ZatoQuickstartCluster-#2"), 5, 2, 3.
  split; [left; done|]. split; [right; left; done|].
  repeat split; try (vm_compute; reflexivity); try lia.
  intros []; vm_compute; reflexivity.
Qed.

(** ** C7: the candidate rows *)




(** ** Running the monad *)

Module RunFacts.

Lemma triple_eta {A} (o : result A * world * list event) :
  o = (res_of o, world_of o, log_of o).
Proof. by destruct o as [[??]?]. Qed.

Lemma bind_ok_eq {A B} (m : M A) (k : A -> M B) w a w1 l1 :
  m w = (Ok a, w1, l1) ->
  bind m k w = (res_of (k a w1), world_of (k a w1), l1 ++ log_of (k a w1)).
Proof. intros H. unfold bind. rewrite H. by destruct (k a w1) as [[??]?]. Qed.

Lemma bind_raise_eq {A B} (m : M A) (k : A -> M B) w e w1 l1 :
  m w = (Raise e, w1, l1) -> bind m k w = (Raise e, w1, l1).
Proof. intros H. unfold bind. by rewrite H. Qed.

Lemma handle_world (m : M unit) w : world_of (handle m w) = world_of (m w).
Proof. unfold handle. by destruct (m w) as [[[?|[?| |?]] ?] ?]. Qed.

Lemma handle_log (m : M unit) w :
  exists tail, log_of (handle m w) = log_of (m w) ++ tail /\
               Forall (fun ev => is_output ev = true) tail.
Proof.
  unfold handle. destruct (m w) as [[[?|[?| |?]] ?] ?]; simpl.
  - exists []. by rewrite app_nil_r.
  - eexists. split; [reflexivity|]. repeat constructor.
  - eexists. split; [reflexivity|]. repeat constructor.
  - exists []. by rewrite app_nil_r.
Qed.

(** The cases of [shutil.copy2]. *)
Lemma copy2_cases (src dst : path) (w : world) :
  exists dst' st,
    (dst' = dst \/ dst' = dst ++ [basename src]) /\
    log_of (copy2 src dst w) = [EvCopy src dst' st] /\
    ((st = CopyOk /\ res_of (copy2 src dst w) = Ok tt /\
      fs_get (fs w) dst' <> Some NDir /\
      exists c, world_of (copy2 src dst w) = set_fs (fs_put dst' (NFile c) (fs w)) w) \/
     (st <> CopyOk /\ (exists e, res_of (copy2 src dst w) = Raise e) /\
      world_of (copy2 src dst w) = w)).
Proof.
  unfold copy2.
  set (dst' := match fs_get (fs w) dst with Some NDir => dst ++ [basename src] | _ => dst end).
  assert (Hd : dst' = dst \/ dst' = dst ++ [basename src])
    by (subst dst'; repeat case_match; auto).
  clearbody dst'.
  destruct (decide (src = dst')).
  { exists dst', CopyFailed. split; [exact Hd|]. split; [reflexivity|]. right. split; [discriminate|]. split; [eauto|reflexivity]. }
  destruct (fs_get (fs w) src) as [[|c]|].
  - exists dst', CopyFailed. split; [exact Hd|]. split; [reflexivity|]. right. split; [discriminate|]. split; [eauto|reflexivity].
  - destruct (fs_get (fs w) (parent dst')) as [[|?]|] eqn:Hp.
    + destruct (fs_get (fs w) dst') as [[|?]|] eqn:Hq.
      * exists dst', CopyFailed. split; [exact Hd|]. split; [reflexivity|]. right. split; [discriminate|]. split; [eauto|reflexivity].
      * exists dst', CopyOk. split; [exact Hd|]. split; [reflexivity|]. left.
        split; [done|]. split; [done|]. split; [rewrite Hq; discriminate|eauto].
      * exists dst', CopyOk. split; [exact Hd|]. split; [reflexivity|]. left.
        split; [done|]. split; [done|]. split; [rewrite Hq; discriminate|eauto].
    + exists dst', CopyFailed. split; [exact Hd|]. split; [reflexivity|]. right. split; [discriminate|]. split; [eauto|reflexivity].
    + exists dst', CopyFailed. split; [exact Hd|]. split; [reflexivity|]. right. split; [discriminate|]. split; [eauto|reflexivity].
  - exists dst', CopyNoSrc. split; [exact Hd|]. split; [reflexivity|]. right. split; [discriminate|]. split; [eauto|reflexivity].
Qed.

Lemma mkdir_cases (p : path) (w : world) :
  log_of (mkdir p w) = [EvMkdir p (match res_of (mkdir p w) with Ok _ => true | _ => false end)] /\
  ((res_of (mkdir p w) = Ok tt /\ fs_get (fs w) p = None /\
    world_of (mkdir p w) = set_fs (fs_put p NDir (fs w)) w) \/
   ((exists e, res_of (mkdir p w) = Raise e) /\ world_of (mkdir p w) = w)).
Proof.
  unfold mkdir, fs_mkdir.
  destruct (fs_get (fs w) p) eqn:Hp; [simpl; split; [done|right; eauto]|].
  destruct (fs_get (fs w) (parent p)) as [[|?]|]; simpl; split; try done; eauto.
Qed.

Lemma fs_get_put (m : gmap path node) p q n :
  fs_get (fs_put p n m) q = if decide (p = q) then Some n else fs_get m q.
Proof.
  unfold fs_get, fs_put. case_decide.
  - subst. by rewrite lookup_insert_eq.
  - by rewrite lookup_insert_ne.
Qed.

(** *** Invariant relations *)

Section Preserve.

Variable R : world -> world -> Prop.
Hypothesis R_refl : forall w, R w w.
Hypothesis R_trans : forall w1 w2 w3, R w1 w2 -> R w2 w3 -> R w1 w3.

Lemma preserves_bind {A B} (m : M A) (k : A -> M B) :
  preserves R m -> (forall x, preserves R (k x)) -> preserves R (bind m k).
Proof.
  intros Hm Hk w. specialize (Hm w).
  destruct (m w) as [[[a|e] w1] l1] eqn:E.
  - rewrite (bind_ok_eq _ _ _ _ _ _ E). unfold world_of in *; simpl in *.
    exact (R_trans _ _ _ Hm (Hk a w1)).
  - by rewrite (bind_raise_eq _ _ _ _ _ _ E).
Qed.

(** A computation that leaves the world alone. *)
Lemma preserves_pure {A} (m : M A) :
  (forall w, world_of (m w) = w) -> preserves R m.
Proof. intros H w. rewrite H. apply R_refl. Qed.

Lemma preserves_sub_command {A} name d (e : ext A) :
  (forall w, R w (snd (e w))) -> preserves R (sub_command name d e).
Proof.
  intros H w. specialize (H w). unfold sub_command, world_of.
  destruct (e w) as [r w'] eqn:E. exact H.
Qed.

Lemma preserves_handle (m : M unit) : preserves R m -> preserves R (handle m).
Proof. intros H w. rewrite handle_world. apply H. Qed.

End Preserve.

Lemma frame_refl own w : frame own w w.
Proof. split; [split; reflexivity|]. split; [intros p H; exact H|]. intros p H. by destruct H. Qed.

Lemma frame_trans own w1 w2 w3 : frame own w1 w2 -> frame own w2 w3 -> frame own w1 w3.
Proof.
  intros [[Hc1 Hs1] [Hd1 Ho1]] [[Hc2 Hs2] [Hd2 Ho2]].
  split; [split; congruence|]. split; [intros p Hp; auto|].
  intros p Hp. destruct (decide (fs_get (fs w2) p = fs_get (fs w1) p)) as [E|E]; auto.
    apply Ho2. by rewrite E.
Qed.

Lemma frame_weaken (own own' : path -> Prop) w w' :
  (forall p, own p -> own' p) -> frame own w w' -> frame own' w w'.
Proof. intros Ho [Hr [Hd Hc]]. split; [exact Hr|]. split; [exact Hd|]. intros p Hp. auto. Qed.

Lemma frame_put own p n w :
  own p -> fs_get (fs w) p <> Some NDir \/ n = NDir ->
  frame own w (set_fs (fs_put p n (fs w)) w).
Proof.
  intros Ho Hn. split; [split; reflexivity|]. unfold set_fs. split.
  - intros q Hq. simpl. rewrite fs_get_put. case_decide; [subst|done].
    destruct Hn as [Hn| ->]; [congruence|done].
  - intros q Hq. simpl in Hq. rewrite fs_get_put in Hq. case_decide; [by subst|by contradiction Hq].
Qed.

Ltac frame_bind :=
  repeat (apply (preserves_bind _ (frame_trans _)); [|intros ?]).

Lemma frame_pure {A} own (m : M A) :
  (forall w, world_of (m w) = w) -> preserves (frame own) m.
Proof. apply preserves_pure, frame_refl. Qed.

Lemma frame_copy2 (own : path -> Prop) src dst :
  own dst -> own (dst ++ [basename src]) -> preserves (frame own) (copy2 src dst).
Proof.
  intros H1 H2 w. destruct (copy2_cases src dst w)
    as (dst' & st & Hd & _ & [(_ & _ & Hn & c & ->) | (_ & _ & ->)]).
  - apply frame_put; [destruct Hd as [->| ->]; auto | auto].
  - apply frame_refl.
Qed.

Lemma frame_mkdir (own : path -> Prop) p : own p -> preserves (frame own) (mkdir p).
Proof.
  intros H w. destruct (mkdir_cases p w) as [_ [(_ & _ & ->) | (_ & ->)]].
  - apply frame_put; auto.
  - apply frame_refl.
Qed.

Lemma frame_ext {A} (own : path -> Prop) name d' d (e : ext A) :
  ext_frame d e -> (forall p, under d p -> own p) ->
  preserves (frame own) (sub_command name d' e).
Proof.
  intros He Ho. apply preserves_sub_command. intros w.
  eapply frame_weaken; [exact Ho|apply He].
Qed.

(** *** Invariants of the log *)

Section LogAll.

Variable P : event -> Prop.

Lemma log_all_bind {A B} (m : M A) (k : A -> M B) :
  log_all P m -> (forall x, log_all P (k x)) -> log_all P (bind m k).
Proof.
  intros Hm Hk w. specialize (Hm w).
  destruct (m w) as [[[a|e] w1] l1] eqn:E.
  - rewrite (bind_ok_eq _ _ _ _ _ _ E). unfold log_of in *; simpl in *.
    apply Forall_app. split; [exact Hm|apply Hk].
  - by rewrite (bind_raise_eq _ _ _ _ _ _ E).
Qed.

Lemma log_all_pure {A} (m : M A) : (forall w, log_of (m w) = []) -> log_all P m.
Proof. intros H w. rewrite H. constructor. Qed.

Lemma log_all_single {A} (m : M A) :
  (forall w, exists ev, log_of (m w) = [ev] /\ P ev) -> log_all P m.
Proof. intros H w. destruct (H w) as [ev [-> Hev]]. repeat constructor. exact Hev. Qed.

End LogAll.

Ltac log_bind :=
  repeat (apply log_all_bind; [|intros ?]).

(** Composing logs in which [ev] precedes the copies into [q]. *)
Lemma before_copies_app q ev l1 l2 :
  before_copies_into q ev l1 -> before_copies_into q ev l2 ->
  before_copies_into q ev (l1 ++ l2).
Proof.
  intros [H1|(a & b & -> & Ha)] H2.
  - destruct H2 as [H2|(c & d & -> & Hc)].
    + left. by apply Forall_app.
    + right. exists (l1 ++ c), d. rewrite app_assoc. split; [done|by apply Forall_app].
  - right. exists a, (b ++ l2). by rewrite <- app_assoc.
Qed.

Lemma before_copies_bind {A B} q ev (m : M A) (k : A -> M B) :
  (forall w, before_copies_into q ev (log_of (m w))) ->
  (forall x w, before_copies_into q ev (log_of (k x w))) ->
  forall w, before_copies_into q ev (log_of (bind m k w)).
Proof.
  intros Hm Hk w.
  destruct (m w) as [[[a|e] w1] l1] eqn:E.
  - rewrite (bind_ok_eq _ _ _ _ _ _ E). unfold log_of at 1; simpl.
    apply before_copies_app; [|apply Hk]. specialize (Hm w). by rewrite E in Hm.
  - rewrite (bind_raise_eq _ _ _ _ _ _ E). specialize (Hm w). by rewrite E in Hm.
Qed.

(** *** Paths *)

Lemma not_prefix_sibling (t r1 r2 : path) (x y : string) :
  x <> y -> ~ (t ++ x :: r1) `prefix_of` (t ++ y :: r2).
Proof.
  intros Hxy Hp. apply prefix_app_inv in Hp. apply prefix_cons_inv_1 in Hp. congruence.
Qed.

Lemma prefix_sibling_app (t r : path) (x : string) :
  (t ++ [x]) `prefix_of` (t ++ x :: r).
Proof. exists r. by rewrite <- app_assoc. Qed.

End RunFacts.

(** ** The phases of a run *)

Module Phases.
Import RunFacts.

Lemma handle_exc_eq (m : M unit) w k :
  res_of (m w) = Raise (PyExc k) ->
  exists msg, handle m w = (Ok tt, world_of (m w),
                            log_of (m w) ++ [EvPrint msg; EvTraceback (PyExc k); EvPrint EmptyString]).
Proof.
  unfold handle, res_of, world_of, log_of. destruct (m w) as [[r w'] l]. simpl.
  intros ->. eexists. reflexivity.
Qed.

(** The three ways the probe of quickstart.py lines 60-68 ends. *)
Lemma ping_phase_cases (a : args) (w : world) :
  world_of (ping_phase a w) = w /\
  ((ping_queries !! odb_type a = None /\ res_of (ping_phase a w) = Raise (PyExc KeyError) /\
    Forall (fun ev => is_output ev = true) (log_of (ping_phase a w))) \/
   ((exists q, ping_queries !! odb_type a = Some q) /\ db_up w = false /\
    res_of (ping_phase a w) = Raise (PyExc OperationalError) /\
    exists msg, log_of (ping_phase a w) = [EvPrint msg; EvPing (odb_type a) false]) \/
   ((exists q, ping_queries !! odb_type a = Some q) /\ db_up w = true /\
    res_of (ping_phase a w) = Ok tt /\
    exists msg rest, log_of (ping_phase a w) = EvPrint msg :: EvPing (odb_type a) true :: rest /\
                     Forall (fun ev => is_output ev = true) rest)).
Proof.
  unfold res_of, world_of, log_of.
  cbv [ping_phase ping dict_get get_engine bind ret throw print].
  destruct (ping_queries !! odb_type a) eqn:Hq; [destruct (db_up w) eqn:Hu|]; simpl.
  - split; [done|]. right; right. split; [eauto|]. split; [done|]. split; [done|].
    do 2 eexists. split; [reflexivity|]. repeat constructor.
  - split; [done|]. right; left. split; [eauto|]. split; [done|]. split; [done|].
    eexists. reflexivity.
  - split; [done|]. left. split; [done|]. split; [done|]. repeat constructor.
Qed.

Lemma body_ping_raise cmds t a w e :
  res_of (ping_phase a w) = Raise e -> body cmds t a w = ping_phase a w.
Proof.
  intros H. unfold body. destruct (ping_phase a w) as [[r w1] l1] eqn:E.
  unfold res_of in H. simpl in H. subst r. by apply bind_raise_eq.
Qed.

Lemma body_ping_ok cmds t a w u :
  res_of (ping_phase a w) = Ok u ->
  exists rest, log_of (body cmds t a w) = log_of (ping_phase a w) ++ rest.
Proof.
  intros H. unfold body. rewrite (bind_ok_eq _ _ _ u (world_of (ping_phase a w))
                                    (log_of (ping_phase a w))).
  - eexists. reflexivity.
  - rewrite (triple_eta (ping_phase a w)). by rewrite H.
Qed.

End Phases.

(** ** C10: the exit status of a run *)

(** C10 (as amended): the handler catches every exception deriving from
    [Exception], prints the diagnostic and the traceback and returns
    normally, so the process exits with status 0, as it does after a
    successful run; a keyboard interrupt makes it exit with status 1; a
    [SystemExit n] raised in the body is not caught and the process exits
    with status [n]. *)
Theorem quickstart_exit_status (cmds : sub_commands) (t : path) (a : args) (w : world) :
  (forall k, res_of (body cmds t a w) = Raise (PyExc k) ->
     run_main cmds t a w = 0 /\
     exists msg, log_of (execute cmds t a w) =
                 log_of (body cmds t a w) ++
                 [EvPrint msg; EvTraceback (PyExc k); EvPrint EmptyString]) /\
  (res_of (body cmds t a w) = Raise KeyboardInterrupt -> run_main cmds t a w = 1) /\
  (forall n, res_of (body cmds t a w) = Raise (SystemExit n) -> run_main cmds t a w = n) /\
  (forall u, res_of (body cmds t a w) = Ok u -> run_main cmds t a w = 0).
Proof.
  unfold run_main, execute, handle, res_of, log_of.
  destruct (body cmds t a w) as [[r w'] l]. simpl. split; [|split; [|split]].
  - intros k ->. split; [reflexivity|]. eexists. reflexivity.
  - intros ->. reflexivity.
  - intros n ->. reflexivity.
  - intros u ->. reflexivity.
Qed.

(** C10: with the database down, the run fails inside the handler and
    the process still exits with status 0. *)
Lemma quickstart_exit_status_witness :
  res_of (body spec_cmds example_target example_args (example_world [] [] false))
    = Raise (PyExc OperationalError) /\
  run_main spec_cmds example_target example_args (example_world [] [] false) = 0.
Proof.
  split; [vm_compute; reflexivity|].
  apply (proj1 (quickstart_exit_status spec_cmds example_target example_args
                  (example_world [] [] false)) OperationalError).
  vm_compute. reflexivity.
Defined.

(** C10 (as stated): [SystemExit] does not derive from [Exception]. A
    zato.cli command that calls [sys.exit(2)], here [create_odb], ends the
    body with [SystemExit 2], which the handler does not catch: the process
    exits with status 2, though it is neither a success nor a keyboard
    interrupt. *)
Lemma quickstart_exit_status_system_exit :
  res_of (body cmds_odb_exits example_target example_args (example_world [] [] true))
    = Raise (SystemExit 2) /\
  run_main cmds_odb_exits example_target example_args (example_world [] [] true) = 2.
Proof. split; vm_compute; reflexivity. Qed.

(** ** C4: the liveness probe comes first *)

(** C4: in every run the first logged step that is not console output is
    the database probe; when the probe cannot run ([ping_queries] has no
    entry for the database kind) or fails, the run ends in the handler
    with the world unchanged (no directory, no file, no row), having
    logged only console output, the probe and the traceback. *)
Theorem ping_before_provisioning (cmds : sub_commands) (t : path) (a : args) (w : world) :
  (exists pre post, log_of (execute cmds t a w) = pre ++ post /\
     Forall (fun ev => is_output ev = true) pre /\
     (post = [] \/ exists ok rest, post = EvPing (odb_type a) ok :: rest)) /\
  ((ping_queries !! odb_type a = None \/ db_up w = false) ->
     world_of (execute cmds t a w) = w /\
     Forall (fun ev => is_output ev = true \/ exists ok, ev = EvPing (odb_type a) ok)
       (log_of (execute cmds t a w)) /\
     exists e, In (EvTraceback e) (log_of (execute cmds t a w))).
Proof.
  destruct (Phases.ping_phase_cases a w)
    as [Hw [(Hq & Hr & Hl) | [(Hq & Hu & Hr & m & Hl) | (Hq & Hu & Hr & m & rest & Hl & Hf)]]].
  - pose proof (Phases.body_ping_raise cmds t a w _ Hr) as Hb.
    destruct (Phases.handle_exc_eq (body cmds t a) w KeyError) as [msg He];
      [by rewrite Hb|].
    rewrite Hb, Hw in He. unfold execute. rewrite He. unfold world_of at 1, log_of at 1 2 3. simpl.
    split.
    + eexists _, []. split; [by rewrite app_nil_r|]. split; [|by left].
      apply Forall_app. split; [exact Hl|]. repeat constructor.
    + intros _. split; [reflexivity|]. split.
      * apply Forall_app. split; [|repeat constructor; auto].
        eapply Forall_impl; [exact Hl|]. intros ev Hev. by left.
      * eexists. apply in_or_app. right. right. left. reflexivity.
  - pose proof (Phases.body_ping_raise cmds t a w _ Hr) as Hb.
    destruct (Phases.handle_exc_eq (body cmds t a) w OperationalError) as [msg' He];
      [by rewrite Hb|].
    rewrite Hb, Hw, Hl in He. unfold execute. rewrite He. unfold world_of at 1, log_of at 1 2 3.
    simpl. split.
    + exists [EvPrint m]. eexists. split; [reflexivity|]. split; [repeat constructor|].
      right. do 2 eexists. reflexivity.
    + intros _. split; [reflexivity|]. split.
      * apply List.Forall_forall. intros ev Hev. simpl in Hev.
        repeat destruct Hev as [<-|Hev]; try contradiction;
          first [by left | right; eexists; reflexivity].
      * eexists. simpl. right. right. right. left. reflexivity.
  - destruct (Phases.body_ping_ok cmds t a w tt Hr) as [rest' Hb].
    destruct (RunFacts.handle_log (body cmds t a) w) as (tail & Ht & _).
    unfold execute. rewrite Ht, Hb, Hl. split.
    + exists [EvPrint m]. eexists. split; [reflexivity|]. split; [repeat constructor|].
      right. do 2 eexists. reflexivity.
    + intros [H|H]; [destruct Hq as [q Hq]; congruence|congruence].
Qed.

(** C4: a database that is down leaves the example world unchanged. *)
Lemma ping_before_provisioning_witness :
  db_up (example_world [] [] false) = false /\
  world_of (execute spec_cmds example_target example_args (example_world [] [] false))
    = example_world [] [] false.
Proof.
  split; [reflexivity|].
  apply (proj2 (ping_before_provisioning spec_cmds example_target example_args
                  (example_world [] [] false))).
  right. reflexivity.
Defined.

(** ** The ODB objects *)

Module DbFacts.

(** The two outcomes of quickstart.py lines 134-160. *)
Lemma setup_cases (a : args) (w : world) :
  (exists n, db_up w = true /\
     next_cluster_id (case_insensitive (odb_type a)) (clusters w) = Ok n /\
     let c := new_cluster a (cluster_seq w) (cluster_name_of quickstart_prefix n) in
     let s := mk_server (server_seq w) (server_name_of n) (Some (c_id c)) in
     insert_error (odb_type a) (clusters w) (servers w) c s = None /\
     res_of (setup_odb_objects a w) = Ok tt /\
     world_of (setup_odb_objects a w) =
       mk_world (fs w) (clusters w ++ [c]) (servers w ++ [s]) (db_up w)
         (cluster_seq w + 1) (server_seq w + 1)) \/
  (exists e, res_of (setup_odb_objects a w) = Raise e /\ world_of (setup_odb_objects a w) = w).
Proof.
  unfold setup_odb_objects.
  cbv [bind print query_clusters of_result ret throw commit_cluster_server res_of world_of].
  destruct (db_up w) eqn:Hu; simpl; [|right; eauto].
  destruct (next_cluster_id (case_insensitive (odb_type a)) (clusters w)) as [n|e] eqn:Hn;
    simpl; [|right; eauto].
  rewrite Hu. simpl.
  match goal with |- context [match insert_error ?k ?cs ?ss ?c ?s with _ => _ end] =>
    destruct (insert_error k cs ss c s) eqn:Hi end; simpl; [right; eauto|left].
  exists n. repeat split; auto.
Qed.

Lemma NoDup_snoc {A} (l : list A) x : NoDup l -> ~ In x l -> NoDup (l ++ [x]).
Proof.
  induction l as [|y l IH]; simpl; intros Hd Hx.
  - constructor; [intros Hin; inversion Hin|constructor].
  - inversion Hd as [|? ? Hy Hd']; subst. constructor.
    + rewrite list_elem_of_In in Hy |- *. intros Hin.
      apply in_app_or in Hin as [Hin|[<-|[]]]; [done|]. apply Hx. by left.
    + apply IH; [done|]. intros Hin. apply Hx. by right.
Qed.

(** A value no row equals under a reflexive comparison is not in the
    column. *)
Lemma existsb_absent {A B} (f : A -> B) (eqb : B -> B -> bool) (v : B) (l : list A) :
  (forall x, eqb x x = true) ->
  existsb (fun x => eqb (f x) v) l = false -> ~ In v (map f l).
Proof.
  intros Hrefl H Hin. apply in_map_iff in Hin as (x & Hx & Hin).
  assert (existsb (fun x => eqb (f x) v) l = true) by
    (apply existsb_exists; exists x; split; [done|]; rewrite Hx; apply Hrefl).
  congruence.
Qed.

Lemma same_name_refl (ci : bool) (x : string) : same_name ci x x = true.
Proof. destruct ci; apply String.eqb_refl. Qed.

Lemma existsb_In {A} (f : A -> Z) (i : Z) (l : list A) :
  existsb (fun x => f x =? i) l = true -> In i (map f l).
Proof.
  intros H. apply existsb_exists in H as (x & Hin & Hx). apply Z.eqb_eq in Hx.
  rewrite <- Hx. by apply in_map.
Qed.

(** What the database has checked when it accepts the two rows. *)
Lemma insert_error_none kind cs ss c s :
  insert_error kind cs ss c s = None ->
  ~ In (c_id c) (map c_id cs) /\ ~ In (c_name c) (map c_name cs) /\
  ~ In (s_id s) (map s_id ss) /\ ~ In (s_name s) (map s_name ss) /\
  match s_cluster_id s with Some i => In i (map c_id (cs ++ [c])) | None => True end.
Proof.
  unfold insert_error. cbv zeta.
  repeat match goal with |- context [if ?b then _ else _] => destruct b eqn:?; [discriminate|] end.
  intros _.
  repeat match goal with H : (_ || _) = false |- _ => apply orb_false_iff in H as [? ?] end.
  repeat match goal with H : negb _ = false |- _ => apply negb_false_iff in H end.
  split; [|split; [|split; [|split]]].
  - eapply existsb_absent; [apply Z.eqb_refl|eassumption].
  - eapply existsb_absent; [apply same_name_refl|eassumption].
  - eapply existsb_absent; [apply Z.eqb_refl|eassumption].
  - eapply existsb_absent; [apply same_name_refl|eassumption].
  - destruct (s_cluster_id s); [|done]. by apply existsb_In.
Qed.

(** Appending two accepted rows keeps the schema's constraints. *)
Lemma db_ok_insert kind cs ss c s :
  insert_error kind cs ss c s = None ->
  db_ok cs ss -> db_ok (cs ++ [c]) (ss ++ [s]).
Proof.
  intros Hi (Hci & Hcn & Hsi & Hsn & Hfk).
  destruct (insert_error_none _ _ _ _ _ Hi) as (Hc1 & Hc2 & Hs1 & Hs2 & Hf).
  unfold db_ok. rewrite !List.map_app. simpl. split; [|split; [|split; [|split]]].
  - by apply NoDup_snoc.
  - by apply NoDup_snoc.
  - by apply NoDup_snoc.
  - by apply NoDup_snoc.
  - apply Forall_app. split.
    + eapply Forall_impl; [exact Hfk|]. intros s' Hs'. cbn beta in Hs' |- *.
      destruct (s_cluster_id s'); [|done]. apply in_or_app. by left.
    + constructor; [|constructor]. simpl. destruct (s_cluster_id s); [|done]. rewrite List.map_app in Hf. exact Hf.
Qed.

Lemma NoDup_map_same {A B} (f : A -> B) (l : list A) x y :
  NoDup (map f l) -> In x l -> In y l -> f x = f y -> x = y.
Proof.
  induction l as [|z l IH]; simpl; [done|]. intros Hd Hx Hy Hf.
  inversion Hd as [|? ? Hz Hd']; subst. rewrite list_elem_of_In in Hz.
  destruct Hx as [<-|Hx], Hy as [<-|Hy]; auto.
  - exfalso. apply Hz. rewrite Hf. by apply in_map.
  - exfalso. apply Hz. rewrite <- Hf. by apply in_map.
Qed.

End DbFacts.

(** ** C5: one transaction for the Cluster and the Server *)



(** ** C9: the Server table *)

(** C9 (as amended): in every store satisfying the schema, a Server
    references at most one Cluster (its [cluster_id] is a nullable foreign
    key to the primary key [cluster.id]), and Server names are unique over
    the whole table, not per cluster; the quickstart registration keeps
    the schema's constraints. *)
Theorem server_cluster_schema :
  (forall (cs : list cluster) (ss : list server), db_ok cs ss ->
     (forall s c1 c2, In s ss -> In c1 cs -> In c2 cs ->
        s_cluster_id s = Some (c_id c1) -> s_cluster_id s = Some (c_id c2) -> c1 = c2) /\
     (forall s1 s2, In s1 ss -> In s2 ss -> s_name s1 = s_name s2 -> s1 = s2)) /\
  (forall (a : args) (w : world), db_ok (clusters w) (servers w) ->
     db_ok (clusters (world_of (setup_odb_objects a w)))
           (servers (world_of (setup_odb_objects a w)))).
Proof.
  split.
  - intros cs ss (Hci & Hcn & Hsi & Hsn & Hfk). split.
    + intros s c1 c2 _ H1 H2 E1 E2. rewrite E1 in E2. injection E2 as E.
      exact (DbFacts.NoDup_map_same c_id cs c1 c2 Hci H1 H2 E).
    + intros s1 s2 H1 H2 E. exact (DbFacts.NoDup_map_same s_name ss s1 s2 Hsn H1 H2 E).
  - intros a w Hok.
    destruct (DbFacts.setup_cases a w) as [(n & _ & _ & Hi & _ & ->) | (e & _ & ->)];
      [|exact Hok].
    exact (DbFacts.db_ok_insert _ _ _ _ _ Hi Hok).
Qed.

(** C9: with the store holding one valid Server row, the quickstart
    registration keeps the schema's constraints. *)
Lemma server_cluster_schema_witness :
  let w := example_world [] [example_taken_server] true in
  db_ok (clusters w) (servers w) /\
  db_ok (clusters (world_of (setup_odb_objects example_args w)))
        (servers (world_of (setup_odb_objects example_args w))).
Proof.
  intros w.
  assert (H : db_ok (clusters w) (servers w)).
  { repeat split; simpl; repeat constructor; intros Hin; inversion Hin. }
  split; [exact H|]. exact (proj2 server_cluster_schema example_args w H).
Defined.

(** C9 (as stated): the foreign key is nullable, so a store satisfying
    the schema may hold a Server that belongs to no Cluster. *)
Lemma server_without_cluster :
  db_ok [] [example_taken_server] /\
  forall c : cluster, s_cluster_id example_taken_server <> Some (c_id c).
Proof.
  split.
  - repeat split; simpl; repeat constructor; intros Hin; inversion Hin.
  - intros c. discriminate.
Qed.

(** ** Where the copies go *)

Module CopyLog.
Import RunFacts.

Section Avoid.

Variable q : path.

Lemma avoid_print msg : log_all (copy_avoids q) (print msg).
Proof. intros w. repeat constructor. Qed.

Lemma avoid_ret {A} (x : A) : log_all (copy_avoids q) (ret x).
Proof. intros w. constructor. Qed.

Lemma avoid_throw {A} e : log_all (copy_avoids q) (@throw A e).
Proof. intros w. constructor. Qed.

Lemma avoid_of_result {A} (r : result A) : log_all (copy_avoids q) (of_result r).
Proof. intros w. destruct r; constructor. Qed.

Lemma avoid_dict_get {V} (d : gmap string V) k : log_all (copy_avoids q) (dict_get d k).
Proof. intros w. unfold dict_get. destruct (d !! k); constructor. Qed.

Lemma avoid_sub_command {A} name d (e : ext A) : log_all (copy_avoids q) (sub_command name d e).
Proof. intros w. unfold sub_command. destruct (e w). repeat constructor. Qed.

Lemma avoid_mkdir p : log_all (copy_avoids q) (mkdir p).
Proof. intros w. unfold mkdir. destruct (fs_mkdir p w). repeat constructor. Qed.

Lemma avoid_copy2 src dst :
  ~ q `prefix_of` dst -> ~ q `prefix_of` (dst ++ [basename src]) ->
  log_all (copy_avoids q) (copy2 src dst).
Proof.
  intros H1 H2 w. destruct (copy2_cases src dst w) as (dst' & st & Hd & -> & _).
  constructor; [|constructor]. simpl. by destruct Hd as [-> | ->].
Qed.

Lemma avoid_ping a : log_all (copy_avoids q) (ping a).
Proof.
  unfold ping. apply log_all_bind; [apply avoid_dict_get|]. intros ? w.
  destruct (db_up w); repeat constructor.
Qed.

Lemma avoid_ping_phase a : log_all (copy_avoids q) (ping_phase a).
Proof.
  unfold ping_phase, get_engine. log_bind;
    auto using avoid_ret, avoid_print, avoid_dict_get.
  intros w. destruct (db_up w); repeat constructor.
Qed.

Lemma avoid_setup a : log_all (copy_avoids q) (setup_odb_objects a).
Proof.
  unfold setup_odb_objects. log_bind; auto using avoid_print, avoid_of_result.
  - intros w. unfold query_clusters. destruct (db_up w); repeat constructor.
  - intros w. unfold commit_cluster_server. repeat case_match; repeat constructor.
Qed.

Lemma avoid_summary t : log_all (copy_avoids q) (summary t).
Proof. unfold summary. log_bind; auto using avoid_print. intros w. repeat constructor. Qed.

Lemma avoid_crypto cmds t a : log_all (copy_avoids q) (create_crypto cmds t a).
Proof.
  unfold create_crypto. log_bind; auto using avoid_sub_command, avoid_mkdir, avoid_ret.
Qed.

End Avoid.

Lemma copy_avoids_mono q q' ev : q `prefix_of` q' -> copy_avoids q ev -> copy_avoids q' ev.
Proof. destruct ev; simpl; try done. intros Hq H Hp. apply H. by transitivity q'. Qed.

Lemma log_all_mono {A} (P P' : event -> Prop) (m : M A) :
  (forall ev, P ev -> P' ev) -> log_all P m -> log_all P' m.
Proof. intros H Hm w. eapply Forall_impl; [apply Hm|exact H]. Qed.

(** Paths of a role directory [t/x/...] are not inside [t/y] when
    [x <> y]. *)
Ltac sibling :=
  rewrite <- ?app_assoc; simpl; apply not_prefix_sibling; discriminate.

Lemma avoid_security_server cmds t a fa :
  log_all (copy_avoids (server_dir t)) (install_security_server cmds t a fa).
Proof.
  unfold install_security_server, security_server_dir, ca_dir, server_dir.
  log_bind; auto using avoid_sub_command, avoid_dict_get; apply avoid_copy2; sibling.
Qed.

Lemma avoid_lb cmds t a fa :
  log_all (copy_avoids (server_dir t)) (install_lb cmds t a fa).
Proof.
  unfold install_lb, lb_dir, ca_dir, server_dir.
  log_bind; auto using avoid_sub_command, avoid_dict_get, avoid_mkdir;
    apply avoid_copy2; sibling.
Qed.

Lemma avoid_zato_admin cmds t a fa :
  log_all (copy_avoids (server_dir t)) (install_zato_admin cmds t a fa).
Proof.
  unfold install_zato_admin, zato_admin_dir, ca_dir, server_dir.
  log_bind; auto using avoid_sub_command, avoid_dict_get, avoid_mkdir;
    apply avoid_copy2; sibling.
Qed.

Lemma sub_command_first {A B} name d (e : ext A) (k : A -> M B) w :
  exists rest, log_of (bind (sub_command name d e) k w) = EvSubCommand name d :: rest.
Proof.
  unfold bind, sub_command. destruct (e w) as [[x|ex] w1]; simpl.
  - destruct (k x w1) as [[??]?]. eexists. reflexivity.
  - eexists. reflexivity.
Qed.

(** [cs.prepare_directories()] is logged right after the server
    directory is made, before any of the server's copies. *)
Lemma install_server_order cmds t a fa w :
  before_copies_into (server_dir t ++ ["config"; "repo"])
    (EvSubCommand "server_prepare_directories" (server_dir t))
    (log_of (install_server cmds t a fa w)).
Proof.
  unfold install_server.
  destruct (mkdir_cases (server_dir t) w) as [Hl [(Hr & _ & _) | ((e & Hr) & _)]].
  - rewrite (bind_ok_eq _ _ _ tt (world_of (mkdir (server_dir t) w)) (log_of (mkdir (server_dir t) w)))
      by (rewrite (triple_eta (mkdir _ w)), Hr; reflexivity).
    unfold log_of at 1. simpl.
    match goal with |- context [log_of (bind (sub_command ?n ?d ?e) ?k ?w1)] =>
      destruct (sub_command_first n d e k w1) as [rest ->] end.
    right. exists (log_of (mkdir (server_dir t) w)), rest. split; [reflexivity|].
    rewrite Hl. repeat constructor.
  - rewrite (bind_raise_eq _ _ _ e (world_of (mkdir (server_dir t) w)) (log_of (mkdir (server_dir t) w)))
      by (rewrite (triple_eta (mkdir _ w)), Hr; reflexivity).
    left. unfold log_of at 1. simpl. rewrite Hl. repeat constructor.
Qed.

Lemma before_of_log_all {A} q ev (m : M A) :
  log_all (copy_avoids q) m -> forall w, before_copies_into q ev (log_of (m w)).
Proof. intros H w. left. apply H. Qed.

Lemma repo_under_server t : server_dir t `prefix_of` (server_dir t ++ ["config"; "repo"]).
Proof. by exists ["config"; "repo"]. Qed.

(** The whole run. *)
Lemma execute_order cmds t a w :
  before_copies_into (server_dir t ++ ["config"; "repo"])
    (EvSubCommand "server_prepare_directories" (server_dir t))
    (log_of (execute cmds t a w)).
Proof.
  set (q := server_dir t ++ ["config"; "repo"]).
  assert (Hm : forall A (m : M A), log_all (copy_avoids (server_dir t)) m ->
                 log_all (copy_avoids q) m).
  { intros A m. apply log_all_mono. intros ev. apply copy_avoids_mono, repo_under_server. }
  unfold execute. destruct (handle_log (body cmds t a) w) as (tail & -> & Ht).
  apply before_copies_app.
  2:{ left. eapply Forall_impl; [exact Ht|]. intros [] H; simpl in *; done. }
  unfold body. apply before_copies_bind; [apply before_of_log_all, avoid_ping_phase|].
  intros _. apply before_copies_bind.
  2:{ intros _. apply before_copies_bind; [apply before_of_log_all, avoid_setup|].
      intros _. apply before_of_log_all, avoid_summary. }
  unfold provision. apply before_copies_bind; [apply before_of_log_all, avoid_crypto|].
  intros [[[lb_fa server_fa] zato_admin_fa] ss_fa].
  apply before_copies_bind; [apply before_of_log_all, Hm, avoid_security_server|]. intros _.
  apply before_copies_bind; [apply before_of_log_all, Hm, avoid_lb|]. intros _.
  apply before_copies_bind; [intros w'; apply install_server_order|]. intros _.
  apply before_of_log_all, Hm, avoid_zato_admin.
Qed.

End CopyLog.

(** ** C8: the server's repository is prepared before the copies *)

(** C8: in every run, whatever the other zato.cli commands do, each copy
    whose target lies in [server/config/repo] comes after the
    [prepare_directories] step of the server. *)
Theorem prepare_directories_before_repo_copies
  (cmds : sub_commands) (t : path) (a : args) (w : world) (j : nat) (src dst : path)
  (st : copy_status) :
  log_of (execute cmds t a w) !! j = Some (EvCopy src dst st) ->
  (server_dir t ++ ["config"; "repo"]) `prefix_of` dst ->
  exists i, (i < j)%nat /\
    log_of (execute cmds t a w) !! i =
      Some (EvSubCommand "server_prepare_directories" (server_dir t)).
Proof.
  intros Hj Hp.
  destruct (CopyLog.execute_order cmds t a w) as [Hall | (l1 & l2 & Hl & Hall)].
  - exfalso. eapply Forall_lookup_1 in Hall; [|exact Hj]. exact (Hall Hp).
  - rewrite Hl in Hj |- *. exists (length l1).
    split.
    + destruct (decide (j < length l1)%nat) as [Hlt|Hge].
      * exfalso. rewrite lookup_app_l in Hj by done.
        eapply Forall_lookup_1 in Hall; [|exact Hj]. exact (Hall Hp).
      * destruct (decide (j = length l1)) as [->|Hne]; [|lia].
        rewrite lookup_app_r, Nat.sub_diag in Hj by lia. discriminate.
    + rewrite lookup_app_r, Nat.sub_diag by lia. reflexivity.
Qed.

(** C8: the first copy into the repository of the example run is
    preceded by the preparation of the server's directories. *)
Lemma prepare_directories_before_repo_copies_witness :
  exists i, (i < 23)%nat /\
    log_of (execute spec_cmds example_target example_args (example_world [] [] true)) !! i =
      Some (EvSubCommand "server_prepare_directories" (server_dir example_target)).
Proof.
  apply (prepare_directories_before_repo_copies spec_cmds example_target example_args
           (example_world [] [] true) 23
           (example_target ++ ["ca"; "out-priv"; "server-priv.pem"])
           (example_target ++ ["server"; "config"; "repo"; "zs-priv-key.pem"]) CopyOk).
  - vm_compute. reflexivity.
  - exists ["zs-priv-key.pem"]. reflexivity.
Defined.

(** ** A run that stops at the server's copies *)

Module ServerAbort.
Import RunFacts CopyLog.

Lemma res3 {A} (r : result A) w l : res_of (r, w, l) = r.
Proof. reflexivity. Qed.

Lemma world3 {A} (r : result A) w l : world_of (r, w, l) = w.
Proof. reflexivity. Qed.

Lemma log3 {A} (r : result A) w l : log_of (r, w, l) = l.
Proof. reflexivity. Qed.

Lemma ensures_bind_first {A B} Q (m : M A) (k : A -> M B) :
  ensures Q m -> (forall x, stable Q (k x)) -> ensures Q (bind m k).
Proof.
  intros Hm Hk w y. destruct (m w) as [[[x|e] w1] l1] eqn:E.
  - rewrite (bind_ok_eq _ _ _ _ _ _ E). unfold res_of at 1, world_of at 1. simpl. intros _.
    apply Hk. specialize (Hm w x). rewrite E in Hm. by apply Hm.
  - rewrite (bind_raise_eq _ _ _ _ _ _ E). discriminate.
Qed.

Lemma ensures_bind_later {A B} Q (m : M A) (k : A -> M B) :
  (forall x, ensures Q (k x)) -> ensures Q (bind m k).
Proof.
  intros Hk w y. destruct (m w) as [[[x|e] w1] l1] eqn:E.
  - rewrite (bind_ok_eq _ _ _ _ _ _ E). unfold res_of at 1, world_of at 1. simpl. apply Hk.
  - rewrite (bind_raise_eq _ _ _ _ _ _ E). discriminate.
Qed.

Lemma stable_dir {A} own p (m : M A) :
  preserves (frame own) m -> stable (fun w => fs_get (fs w) p = Some NDir) m.
Proof. intros H w Hp. destruct (H w) as [_ [Hd _]]. auto. Qed.

Lemma ensures_mkdir p : ensures (fun w => fs_get (fs w) p = Some NDir) (mkdir p).
Proof.
  intros w x Hr. destruct (mkdir_cases p w) as [_ [(_ & _ & ->) | ((e & He) & _)]].
  - simpl. rewrite fs_get_put. by rewrite decide_True.
  - congruence.
Qed.

Lemma missing_source_bind {A B} (m : M A) (k : A -> M B) :
  fails_on_missing_source m -> (forall x, fails_on_missing_source (k x)) ->
  fails_on_missing_source (bind m k).
Proof.
  intros Hm Hk w src dst. destruct (m w) as [[[x|e] w1] l1] eqn:E.
  - rewrite (bind_ok_eq _ _ _ _ _ _ E). unfold log_of at 1, res_of at 1. simpl.
    intros Hin. apply in_app_or in Hin as [Hin|Hin].
    + specialize (Hm w src dst). rewrite E in Hm. specialize (Hm Hin). discriminate.
    + exact (Hk x w1 src dst Hin).
  - rewrite (bind_raise_eq _ _ _ _ _ _ E). intros Hin.
    specialize (Hm w src dst). rewrite E in Hm. specialize (Hm Hin).
    unfold res_of in *. simpl in *. congruence.
Qed.

(** A computation that logs no copy. *)
Lemma missing_source_no_copy {A} (m : M A) :
  log_all (copy_avoids []) m -> fails_on_missing_source m.
Proof.
  intros H w src dst Hin. exfalso. specialize (H w).
  rewrite List.Forall_forall in H. apply (H _ Hin). apply prefix_nil.
Qed.

Lemma missing_source_copy2 src dst : fails_on_missing_source (copy2 src dst).
Proof.
  intros w s d. unfold copy2.
  set (dst' := match fs_get (fs w) dst with Some NDir => dst ++ [basename src] | _ => dst end).
  clearbody dst'.
  destruct (decide (src = dst')); [intros [H|[]]; discriminate|].
  destruct (fs_get (fs w) src) as [[|c]|]; [intros [H|[]]; discriminate| |done].
  destruct (fs_get (fs w) (parent dst')) as [[|?]|], (fs_get (fs w) dst') as [[|?]|];
    intros [H|[]]; discriminate.
Qed.

Lemma avoid_contra q l s d st :
  Forall (copy_avoids q) l -> In (EvCopy s d st) l -> q `prefix_of` d -> False.
Proof. intros H Hin Hp. rewrite List.Forall_forall in H. exact (H _ Hin Hp). Qed.

(** The directories a role step leaves in place. *)
Ltac own_tac :=
  first
    [ reflexivity
    | left; own_tac
    | right; own_tac
    | apply prefix_app_r; own_tac ].

Section Phases.

Variable cmds : sub_commands.
Variable t : path.
Hypothesis Hwb : well_behaved cmds.

Let own := before_zato_admin t.

Ltac frame_step :=
  match goal with
  | |- preserves _ (bind _ _) =>
      apply (preserves_bind _ (frame_trans _)); [|intros ?]
  | |- preserves _ (ret _) => apply frame_pure; reflexivity
  | |- preserves _ (dict_get _ _) =>
      apply frame_pure; intros ?; unfold dict_get; case_match; reflexivity
  | |- preserves _ (mkdir _) => apply frame_mkdir; unfold own, before_zato_admin; own_tac
  | |- preserves _ (copy2 _ _) =>
      apply frame_copy2; unfold own, before_zato_admin; unfold ca_dir, security_server_dir,
        lb_dir, server_dir; own_tac
  end.

Lemma frame_crypto a : preserves (frame own) (create_crypto cmds t a).
Proof.
  unfold create_crypto. repeat frame_step.
  all: try (eapply frame_ext; [apply Hwb|]; simpl; intros p Hp;
            unfold own, before_zato_admin; first [done | by left]).
Qed.

Lemma frame_security_server a fa : preserves (frame own) (install_security_server cmds t a fa).
Proof.
  unfold install_security_server. repeat frame_step.
  eapply frame_ext; [apply Hwb|]. simpl. intros p Hp. right. by left.
Qed.

Lemma frame_lb a fa : preserves (frame own) (install_lb cmds t a fa).
Proof.
  unfold install_lb. repeat frame_step.
  eapply frame_ext; [apply Hwb|]. simpl. intros p Hp. right. right. by left.
Qed.

Lemma frame_server a fa : preserves (frame own) (install_server cmds t a fa).
Proof.
  unfold install_server. repeat frame_step.
  all: eapply frame_ext; [apply Hwb|]; simpl; intros p Hp; right; right; by right.
Qed.

Lemma ensures_crypto a :
  ensures (fun w => fs_get (fs w) (ca_dir t) = Some NDir) (create_crypto cmds t a).
Proof.
  unfold create_crypto. apply ensures_bind_later. intros _.
  apply ensures_bind_first; [apply ensures_mkdir|]. intros _.
  apply (stable_dir own). repeat frame_step.
  all: eapply frame_ext; [apply Hwb|]; simpl; intros p Hp; unfold own, before_zato_admin;
         by left.
Qed.

Lemma ensures_security_server a fa :
  ensures (fun w => fs_get (fs w) (security_server_dir t) = Some NDir)
    (install_security_server cmds t a fa).
Proof.
  unfold install_security_server. apply ensures_bind_first.
  - intros w [] Hr. pose proof (wb_create_security_server_dir cmds Hwb (security_server_dir t) a w) as H.
    unfold sub_command, res_of, world_of in *.
    destruct (create_security_server cmds (security_server_dir t) a w) as [r w'] eqn:E.
    simpl in *. subst r. by apply H.
  - intros _. apply (stable_dir own). repeat frame_step.
Qed.

Lemma ensures_lb a fa :
  ensures (fun w => fs_get (fs w) (lb_dir t) = Some NDir) (install_lb cmds t a fa).
Proof.
  unfold install_lb. apply ensures_bind_first; [apply ensures_mkdir|]. intros _.
  apply (stable_dir own). repeat frame_step.
  eapply frame_ext; [apply Hwb|]. simpl. intros p Hp. right. right. by left.
Qed.

Ltac missing_step :=
  match goal with
  | |- fails_on_missing_source (bind _ _) => apply missing_source_bind; [|intros ?]
  | |- fails_on_missing_source (copy2 _ _) => apply missing_source_copy2
  | |- fails_on_missing_source (sub_command _ _ _) =>
      apply missing_source_no_copy, avoid_sub_command
  | |- fails_on_missing_source (dict_get _ _) => apply missing_source_no_copy, avoid_dict_get
  | |- fails_on_missing_source (mkdir _) => apply missing_source_no_copy, avoid_mkdir
  end.

Lemma server_missing_source a fa w src dst :
  In (EvCopy src dst CopyNoSrc) (log_of (install_server cmds t a fa w)) ->
  res_of (install_server cmds t a fa w) = Raise (PyExc IOError) /\
  fs_get (fs (world_of (install_server cmds t a fa w))) (server_dir t) = Some NDir.
Proof.
  intros Hin. split.
  - revert w src dst Hin. change (fails_on_missing_source (install_server cmds t a fa)).
    unfold install_server. repeat missing_step.
  - revert Hin. unfold install_server.
    pose proof (mkdir_cases (server_dir t) w) as Hc.
    destruct (mkdir (server_dir t) w) as [[[u|e] w1] l1] eqn:E;
      rewrite ?res3, ?world3, ?log3 in Hc.
    + rewrite (bind_ok_eq _ _ _ _ _ _ E), world3. intros _. cbn beta.
      destruct Hc as [_ [(_ & _ & Hw) | ((e & He) & _)]]; [|discriminate].
      match goal with |- context [world_of (?m w1)] =>
        assert (Hf : preserves (frame own) m) by (repeat frame_step;
          (eapply frame_ext; [apply Hwb|]; simpl; intros p Hp; right; right; by right));
        destruct (Hf w1) as [_ [Hd _]]; apply Hd end.
      rewrite Hw. simpl. rewrite fs_get_put. by rewrite decide_True.
    + rewrite (bind_raise_eq _ _ _ _ _ _ E), log3. destruct Hc as [Hl _]. rewrite Hl.
      intros [H|[]]. discriminate.
Qed.

Lemma provision_missing_source a w src dst :
  In (EvCopy src dst CopyNoSrc) (log_of (provision cmds t a w)) ->
  server_dir t `prefix_of` dst ->
  res_of (provision cmds t a w) = Raise (PyExc IOError) /\
  frame own w (world_of (provision cmds t a w)) /\
  fs_get (fs (world_of (provision cmds t a w))) (ca_dir t) = Some NDir /\
  fs_get (fs (world_of (provision cmds t a w))) (security_server_dir t) = Some NDir /\
  fs_get (fs (world_of (provision cmds t a w))) (lb_dir t) = Some NDir /\
  fs_get (fs (world_of (provision cmds t a w))) (server_dir t) = Some NDir.
Proof.
  intros Hin Hp. unfold provision in *. set (a' := set_names a) in *.
  pose proof (frame_crypto a' w) as Fc. pose proof (ensures_crypto a' w) as Ec.
  pose proof (avoid_crypto (server_dir t) cmds t a' w) as Ac.
  destruct (create_crypto cmds t a' w) as [[[fas|e1] w1] l1] eqn:E1.
  2:{ exfalso. rewrite (bind_raise_eq _ _ _ _ _ _ E1) in Hin.
      exact (avoid_contra _ _ _ _ _ Ac Hin Hp). }
  rewrite (bind_ok_eq _ _ _ _ _ _ E1) in Hin |- *.
  rewrite ?res3, ?world3, ?log3 in *.
  specialize (Ec fas eq_refl).
  apply in_app_or in Hin as [Hin|Hin]; [exfalso; exact (avoid_contra _ _ _ _ _ Ac Hin Hp)|].
  destruct fas as [[[lb_fa server_fa] zato_admin_fa] ss_fa]. cbn beta iota in Hin |- *.
  pose proof (frame_security_server a' ss_fa w1) as Fs.
  pose proof (ensures_security_server a' ss_fa w1) as Es.
  pose proof (avoid_security_server cmds t a' ss_fa w1) as As.
  destruct (install_security_server cmds t a' ss_fa w1) as [[[u2|e2] w2] l2] eqn:E2.
  2:{ exfalso. rewrite (bind_raise_eq _ _ _ _ _ _ E2) in Hin.
      exact (avoid_contra _ _ _ _ _ As Hin Hp). }
  rewrite (bind_ok_eq _ _ _ _ _ _ E2) in Hin |- *. rewrite ?res3, ?world3, ?log3 in *.
  specialize (Es u2 eq_refl).
  apply in_app_or in Hin as [Hin|Hin]; [exfalso; exact (avoid_contra _ _ _ _ _ As Hin Hp)|].
  pose proof (frame_lb a' lb_fa w2) as Fl.
  pose proof (ensures_lb a' lb_fa w2) as El.
  pose proof (avoid_lb cmds t a' lb_fa w2) as Al.
  destruct (install_lb cmds t a' lb_fa w2) as [[[u3|e3] w3] l3] eqn:E3.
  2:{ exfalso. rewrite (bind_raise_eq _ _ _ _ _ _ E3) in Hin.
      exact (avoid_contra _ _ _ _ _ Al Hin Hp). }
  rewrite (bind_ok_eq _ _ _ _ _ _ E3) in Hin |- *. rewrite ?res3, ?world3, ?log3 in *.
  specialize (El u3 eq_refl).
  apply in_app_or in Hin as [Hin|Hin]; [exfalso; exact (avoid_contra _ _ _ _ _ Al Hin Hp)|].
  pose proof (frame_server a' server_fa w3) as Fv.
  pose proof (server_missing_source a' server_fa w3) as Mv.
  destruct (install_server cmds t a' server_fa w3) as [[[u4|e4] w4] l4] eqn:E4.
  - exfalso. rewrite (bind_ok_eq _ _ _ _ _ _ E4) in Hin. rewrite ?log3 in Hin.
    apply in_app_or in Hin as [Hin|Hin].
    + rewrite log3 in Mv. destruct (Mv _ _ Hin) as [Hr _]. discriminate.
    + exact (avoid_contra _ _ _ _ _ (avoid_zato_admin cmds t a' zato_admin_fa _) Hin Hp).
  - rewrite (bind_raise_eq _ _ _ _ _ _ E4) in Hin |- *. rewrite ?res3, ?world3, ?log3 in *.
    destruct (Mv _ _ Hin) as [-> Hd]. split; [reflexivity|].
    split; [apply (frame_trans _ _ _ _ Fc), (frame_trans _ _ _ _ Fs), (frame_trans _ _ _ _ Fl), Fv|].
    destruct Fs as [_ [Ds _]], Fl as [_ [Dl _]], Fv as [_ [Dv _]].
    auto 6.
Qed.

End Phases.

Lemma zato_admin_not_before (t : path) : ~ before_zato_admin t (zato_admin_dir t).
Proof.
  unfold before_zato_admin, ca_dir, security_server_dir, lb_dir, server_dir, zato_admin_dir.
  intros [H|[H|[H|H]]]; revert H; apply (not_prefix_sibling t [] []); discriminate.
Qed.


(** *** The spec's commands keep to their directories *)

Lemma ext_frame_bind {A B} d (m : ext A) (k : A -> ext B) :
  ext_frame d m -> (forall x, ext_frame d (k x)) -> ext_frame d (ebind m k).
Proof.
  intros Hm Hk w. specialize (Hm w). unfold ebind.
  destruct (m w) as [[x|e] w1]; simpl in *; [|exact Hm].
  exact (frame_trans _ _ _ _ Hm (Hk x w1)).
Qed.

Lemma ext_frame_ret {A} d (x : A) : ext_frame d (eret x).
Proof. intros w. apply frame_refl. Qed.

Lemma ext_frame_mkdir d p : under d p -> ext_frame d (fs_mkdir p).
Proof.
  intros Hp w. unfold fs_mkdir. simpl.
  destruct (fs_get (fs w) p) as [n|] eqn:E; [apply frame_refl|].
  destruct (fs_get (fs w) (parent p)) as [[|c]|]; try apply frame_refl.
  apply frame_put; [exact Hp|by right].
Qed.

Lemma ext_frame_write d p c : under d p -> ext_frame d (fs_write p c).
Proof.
  intros Hp w. unfold fs_write. simpl.
  destruct (fs_get (fs w) (parent p)) as [[|c']|]; try apply frame_refl.
  destruct (fs_get (fs w) p) as [[|c']|] eqn:E; try apply frame_refl;
    (apply frame_put; [exact Hp|left; rewrite E; discriminate]).
Qed.

Lemma ext_frame_require d p : ext_frame d (fs_require_file p).
Proof.
  intros w. unfold fs_require_file. destruct (fs_get (fs w) p) as [[|?]|]; apply frame_refl.
Qed.

Ltac ext_frame_tac :=
  repeat (apply ext_frame_bind; [|intros _]);
  first [ apply ext_frame_ret | apply ext_frame_require
        | apply ext_frame_mkdir; simpl; first [reflexivity | apply prefix_app_r; reflexivity]
        | apply ext_frame_write; simpl; apply prefix_app_r; reflexivity ].

Lemma spec_issue_frame role d a : ext_frame (Some d) (spec_ca_issue role d a).
Proof. unfold spec_ca_issue. ext_frame_tac. Qed.

Lemma issue_without_priv_key_frame role d a :
  ext_frame (Some d) (issue_without_priv_key role d a).
Proof. unfold issue_without_priv_key. ext_frame_tac. Qed.

Lemma parent_snoc (d : path) x : parent (d ++ [x]) = d.
Proof. unfold parent. by rewrite removelast_last. Qed.

Lemma snoc_neq (d : path) x : d <> d ++ [x].
Proof. intros Heq. apply (f_equal length) in Heq. rewrite length_app in Heq. simpl in Heq. lia. Qed.

Lemma spec_security_server_dir d a w :
  fst (spec_create_security_server d a w) = Ok tt ->
  fs_get (fs (snd (spec_create_security_server d a w))) d = Some NDir.
Proof.
  unfold spec_create_security_server, ebind.
  assert (Hd : forall w1, fs_mkdir d w = (Ok tt, w1) -> fs_get (fs w1) d = Some NDir).
  { intros w1. unfold fs_mkdir.
    destruct (fs_get (fs w) d); [discriminate|].
    destruct (fs_get (fs w) (parent d)) as [[|?]|]; try discriminate.
    intros [= <-]. simpl. rewrite fs_get_put. by rewrite decide_True. }
  destruct (fs_mkdir d w) as [[[]|e] w1] eqn:E; [|discriminate].
  specialize (Hd w1 eq_refl). unfold fs_write. rewrite parent_snoc, Hd.
  destruct (fs_get (fs w1) (d ++ ["security-server.conf"])) as [[|?]|]; simpl;
    try discriminate; intros _; rewrite fs_get_put, decide_False; auto using snoc_neq.
Qed.

Lemma cmds_server_key_lost_well_behaved : well_behaved cmds_server_key_lost.
Proof.
  constructor; simpl.
  - intros a. apply ext_frame_ret.
  - intros d a. unfold spec_ca_create_ca. ext_frame_tac.
  - apply spec_issue_frame.
  - apply issue_without_priv_key_frame.
  - apply spec_issue_frame.
  - apply spec_issue_frame.
  - intros d a. unfold spec_create_security_server. ext_frame_tac.
  - apply spec_security_server_dir.
  - intros d a. unfold spec_create_lb. ext_frame_tac.
  - intros d. unfold spec_prepare_directories. ext_frame_tac.
  - intros d a. unfold spec_server_execute. ext_frame_tac.
  - intros d a. unfold spec_create_zato_admin. ext_frame_tac.
Qed.
End ServerAbort.

Import RunFacts Phases CopyLog ServerAbort.

(** C3 (corrected): when a copy into the server's directory finds its
    source file missing, the body of [execute] stops with [IOError], which
    the handler catches. No [cluster] or [server] row has been written; the
    directories of the CA, the security server, the load balancer and the
    server are on disk; the web console's directory, which the source
    creates after the server's, has not been created. *)
Theorem server_copy_failure_state (cmds : sub_commands) (t : path) (a : args) (w : world)
    (src dst : path) :
  well_behaved cmds ->
  fs_get (fs w) (zato_admin_dir t) = None ->
  In (EvCopy src dst CopyNoSrc) (log_of (body cmds t a w)) ->
  server_dir t `prefix_of` dst ->
  res_of (body cmds t a w) = Raise (PyExc IOError) /\
  res_of (execute cmds t a w) = Ok tt /\
  clusters (world_of (execute cmds t a w)) = clusters w /\
  servers (world_of (execute cmds t a w)) = servers w /\
  fs_get (fs (world_of (execute cmds t a w))) (ca_dir t) = Some NDir /\
  fs_get (fs (world_of (execute cmds t a w))) (security_server_dir t) = Some NDir /\
  fs_get (fs (world_of (execute cmds t a w))) (lb_dir t) = Some NDir /\
  fs_get (fs (world_of (execute cmds t a w))) (server_dir t) = Some NDir /\
  fs_get (fs (world_of (execute cmds t a w))) (zato_admin_dir t) = None.
Proof.
  intros Hwb Hz Hin Hp.
  assert (Hbody : res_of (body cmds t a w) = Raise (PyExc IOError) /\
                  frame (before_zato_admin t) w (world_of (body cmds t a w)) /\
                  fs_get (fs (world_of (body cmds t a w))) (ca_dir t) = Some NDir /\
                  fs_get (fs (world_of (body cmds t a w))) (security_server_dir t) = Some NDir /\
                  fs_get (fs (world_of (body cmds t a w))) (lb_dir t) = Some NDir /\
                  fs_get (fs (world_of (body cmds t a w))) (server_dir t) = Some NDir).
  { revert Hin. unfold body.
    pose proof (ping_phase_cases a w) as [Hw1 _].
    pose proof (avoid_ping_phase (server_dir t) a w) as Ap.
    destruct (ping_phase a w) as [[[u|e] w1] l1] eqn:E1; rewrite ?world3 in Hw1; subst w1.
    2:{ rewrite (bind_raise_eq _ _ _ _ _ _ E1), log3. intros Hin.
        exfalso. exact (avoid_contra _ _ _ _ _ Ap Hin Hp). }
    rewrite (bind_ok_eq _ _ _ _ _ _ E1), ?res3, ?world3, ?log3. intros Hin.
    apply in_app_or in Hin as [Hin|Hin]; [exfalso; exact (avoid_contra _ _ _ _ _ Ap Hin Hp)|].
    pose proof (provision_missing_source cmds t Hwb a w) as Pm.
    destruct (provision cmds t a w) as [[[u2|e2] w2] l2] eqn:E2; rewrite ?res3, ?world3, ?log3 in Pm.
    - exfalso. rewrite (bind_ok_eq _ _ _ _ _ _ E2), ?log3 in Hin.
      apply in_app_or in Hin as [Hin|Hin].
      + destruct (Pm _ _ Hin Hp) as [H _]. discriminate.
      + assert (Hr : log_all (copy_avoids (server_dir t))
                       (setup_odb_objects (set_names a);; summary t))
          by (apply log_all_bind; [apply avoid_setup | intros; apply avoid_summary]).
        exact (avoid_contra _ _ _ _ _ (Hr w2) Hin Hp).
    - rewrite (bind_raise_eq _ _ _ _ _ _ E2), ?res3, ?world3, ?log3 in Hin |- *.
      exact (Pm _ _ Hin Hp). }
  destruct Hbody as (Hr & [[Hc Hs] [_ Ho]] & H1 & H2 & H3 & H4).
  unfold execute. rewrite handle_world.
  split; [exact Hr|]. split.
  { destruct (handle_exc_eq (body cmds t a) w IOError Hr) as [msg ->]. reflexivity. }
  repeat (split; [assumption|]).
  destruct (decide (fs_get (fs (world_of (body cmds t a w))) (zato_admin_dir t) =
                    fs_get (fs w) (zato_admin_dir t))) as [E|E].
  - by rewrite E.
  - exfalso. exact (zato_admin_not_before t (Ho _ E)).
Qed.

Lemma server_copy_failure_state_witness :
  res_of (body cmds_server_key_lost example_target example_args (example_world [] [] true)) =
    Raise (PyExc IOError) /\
  fs_get (fs (world_of (execute cmds_server_key_lost example_target example_args
                          (example_world [] [] true)))) (zato_admin_dir example_target) = None.
Proof.
  destruct (server_copy_failure_state cmds_server_key_lost example_target example_args
              (example_world [] [] true)
              (example_target ++ ["ca"; "out-priv"; "server-priv.pem"])
              (example_target ++ ["server"; "config"; "repo"; "zs-priv-key.pem"])
              cmds_server_key_lost_well_behaved)
    as (Hr & _ & _ & _ & _ & _ & _ & _ & Hz).
  - vm_compute. reflexivity.
  - vm_compute. repeat (first [left; reflexivity | right]).
  - exists ["config"; "repo"; "zs-priv-key.pem"]. reflexivity.
  - split; [exact Hr | exact Hz].
Defined.

(** C3, counterexample: the server's private key was never written, so
    its copy fails; the web console's directory is not on disk when the
    run stops, as the source creates it after the server's. *)
Lemma server_copy_failure_no_zato_admin_dir :
  In (EvCopy (example_target ++ ["ca"; "out-priv"; "server-priv.pem"])
             (example_target ++ ["server"; "config"; "repo"; "zs-priv-key.pem"]) CopyNoSrc)
     (log_of (execute cmds_server_key_lost example_target example_args
                (example_world [] [] true))) /\
  fs_get (fs (world_of (execute cmds_server_key_lost example_target example_args
                          (example_world [] [] true)))) (zato_admin_dir example_target) = None.
Proof.
  split; vm_compute; [repeat (first [left; reflexivity | right]) | reflexivity].
Qed.

Module Relative.
Import RunFacts.

Lemma seen_get t W R l : seen_from t W R -> fs_get (fs W) (t ++ l) = fs_get (fs R) l.
Proof. intros [H _]. apply H. Qed.

Lemma parent_app (t l : path) : l <> [] -> parent (t ++ l) = t ++ parent l.
Proof. intros Hl. unfold parent. by apply removelast_app. Qed.

Lemma basename_app (t l : path) : l <> [] -> basename (t ++ l) = basename l.
Proof.
  unfold basename. intros Hl. induction t as [|x t IH]; [done|].
  rewrite <- app_comm_cons. simpl. destruct (t ++ l) eqn:E.
  - apply app_eq_nil in E as [_ ->]. done.
  - exact IH.
Qed.

Lemma seen_set t W R mW mR :
  seen_from t W R -> (forall l, fs_get mW (t ++ l) = fs_get mR l) ->
  seen_from t (set_fs mW W) (set_fs mR R).
Proof.
  intros [_ He] Hg. split; [exact Hg|].
  destruct W, R. unfold set_fs in *. simpl in *. injection He. intros. by subst.
Qed.

Lemma seen_put t W R l n :
  seen_from t W R ->
  seen_from t (set_fs (fs_put (t ++ l) n (fs W)) W) (set_fs (fs_put l n (fs R)) R).
Proof.
  intros HWR. apply seen_set; [done|]. intros l'. unfold fs_get, fs_put.
  destruct (decide (l = l')) as [<-|Hne].
  - by rewrite !lookup_insert_eq.
  - rewrite !lookup_insert_ne; [apply (seen_get _ _ _ _ HWR)|done|].
    intros E. by apply app_inv_head in E.
Qed.

(** ** The monad *)

Lemma sim_bind {A B C D} t (VR : A -> B -> Prop) (VS : C -> D -> Prop)
    (mA : M A) (mB : M B) (kA : A -> M C) (kB : B -> M D) :
  sim_M t VR mA mB -> (forall x y, VR x y -> sim_M t VS (kA x) (kB y)) ->
  sim_M t VS (bind mA kA) (bind mB kB).
Proof.
  intros Hm Hk W R HWR. unfold bind.
  destruct (Hm W R HWR) as [Hr Hw].
  destruct (mA W) as [[rA WA] lA], (mB R) as [[rB RB] lB].
  unfold res_of, world_of in Hr, Hw. simpl in Hr, Hw.
  destruct rA as [x|eA], rB as [y|eB]; try contradiction.
  - destruct (Hk x y Hr WA RB Hw) as [Hr' Hw'].
    destruct (kA x WA) as [[? ?] ?], (kB y RB) as [[? ?] ?]. split; done.
  - split; done.
Qed.

Lemma sim_ret {A B} t (VR : A -> B -> Prop) x y : VR x y -> sim_M t VR (ret x) (ret y).
Proof. intros H W R HWR. split; done. Qed.

Lemma sim_print t msg : sim_M t eq (print msg) (print msg).
Proof. intros W R HWR. split; done. Qed.

Lemma sim_dict_get t fA fB k :
  fa_rel t fA fB -> sim_M t (path_rel t) (dict_get fA k) (dict_get fB k).
Proof.
  intros H W R HWR. unfold dict_get. specialize (H k).
  destruct (fA !! k), (fB !! k); try contradiction; split; done.
Qed.

Lemma sim_sub_command {A B} t (VR : A -> B -> Prop) n1 n2 d1 d2 (eA : ext A) (eB : ext B) :
  sim_ext t VR eA eB -> sim_M t VR (sub_command n1 d1 eA) (sub_command n2 d2 eB).
Proof.
  intros H W R HWR. destruct (H W R HWR) as [Hr Hw]. unfold sub_command.
  destruct (eA W), (eB R). split; done.
Qed.

Lemma sim_fs_mkdir t pA pB : pA = t ++ pB -> pB <> [] -> sim_ext t eq (fs_mkdir pA) (fs_mkdir pB).
Proof.
  intros -> Hne W R HWR. unfold fs_mkdir.
  rewrite (seen_get _ _ _ _ HWR). destruct (fs_get (fs R) pB); [split; done|].
  rewrite parent_app by done. rewrite (seen_get _ _ _ _ HWR).
  destruct (fs_get (fs R) (parent pB)) as [[|]|]; split; try done.
  by apply seen_put.
Qed.

Lemma sim_mkdir t pA pB : pA = t ++ pB -> pB <> [] -> sim_M t eq (mkdir pA) (mkdir pB).
Proof.
  intros HA Hne W R HWR. destruct (sim_fs_mkdir t pA pB HA Hne W R HWR) as [Hr Hw].
  unfold mkdir. destruct (fs_mkdir pA W), (fs_mkdir pB R). split; done.
Qed.

Lemma sim_copy2 t sA sB dA dB :
  sA = t ++ sB -> sB <> [] -> dA = t ++ dB -> dB <> [] ->
  sim_M t eq (copy2 sA dA) (copy2 sB dB).
Proof.
  intros -> Hs -> Hd W R HWR. unfold copy2.
  rewrite (seen_get _ _ _ dB HWR).
  assert (Hdst : exists d, d <> [] /\
            (match fs_get (fs R) dB with Some NDir => (t ++ dB) ++ [basename (t ++ sB)]
                                      | _ => t ++ dB end) = t ++ d /\
            (match fs_get (fs R) dB with Some NDir => dB ++ [basename sB] | _ => dB end) = d).
  { destruct (fs_get (fs R) dB) as [[|]|].
    - exists (dB ++ [basename sB]). split; [by destruct dB|].
      rewrite basename_app, <- app_assoc by done. done.
    - by exists dB.
    - by exists dB. }
  destruct Hdst as (d & Hne & -> & ->).
  destruct (decide (t ++ sB = t ++ d)) as [E|E];
    destruct (decide (sB = d)) as [E'|E']; try (exfalso; apply E'; by apply app_inv_head in E);
    try (exfalso; apply E; by rewrite E'); [split; done|].
  rewrite (seen_get _ _ _ sB HWR).
  destruct (fs_get (fs R) sB) as [[|c]|]; try (split; done).
  rewrite parent_app by done. rewrite !(seen_get _ _ _ _ HWR).
  destruct (fs_get (fs R) (parent d)) as [[|]|]; try (split; done).
  destruct (fs_get (fs R) d) as [[|]|]; split; try done; by apply seen_put.
Qed.

(** ** The commands' actions *)

Lemma sim_ebind {A B C D} t (VR : A -> B -> Prop) (VS : C -> D -> Prop)
    (eA : ext A) (eB : ext B) (kA : A -> ext C) (kB : B -> ext D) :
  sim_ext t VR eA eB -> (forall x y, VR x y -> sim_ext t VS (kA x) (kB y)) ->
  sim_ext t VS (ebind eA kA) (ebind eB kB).
Proof.
  intros He Hk W R HWR. unfold ebind.
  destruct (He W R HWR) as [Hr Hw].
  destruct (eA W) as [rA WA], (eB R) as [rB RB]. simpl in Hr, Hw.
  destruct rA as [x|eA'], rB as [y|eB']; try contradiction.
  - exact (Hk x y Hr WA RB Hw).
  - split; done.
Qed.

Lemma sim_eret {A B} t (VR : A -> B -> Prop) x y : VR x y -> sim_ext t VR (eret x) (eret y).
Proof. intros H W R HWR. split; done. Qed.

Lemma sim_fs_write t pA pB c :
  pA = t ++ pB -> pB <> [] -> sim_ext t eq (fs_write pA c) (fs_write pB c).
Proof.
  intros -> Hne W R HWR. unfold fs_write.
  rewrite parent_app by done. rewrite !(seen_get _ _ _ _ HWR).
  destruct (fs_get (fs R) (parent pB)) as [[|]|]; try (split; done).
  destruct (fs_get (fs R) pB) as [[|]|]; split; try done; by apply seen_put.
Qed.

Lemma sim_fs_require_file t pA pB :
  pA = t ++ pB -> sim_ext t eq (fs_require_file pA) (fs_require_file pB).
Proof.
  intros -> W R HWR. unfold fs_require_file. rewrite (seen_get _ _ _ _ HWR).
  destruct (fs_get (fs R) pB) as [[|]|]; split; done.
Qed.

Lemma fa_rel_insert t k pA pB fA fB :
  path_rel t pA pB -> fa_rel t fA fB -> fa_rel t (<[k:=pA]> fA) (<[k:=pB]> fB).
Proof.
  intros Hp Hf k'. destruct (decide (k = k')) as [<-|Hne].
  - by rewrite !lookup_insert_eq.
  - rewrite !lookup_insert_ne by done. apply Hf.
Qed.

Lemma fa_rel_empty t : fa_rel t ∅ ∅.
Proof. intros k. by rewrite !lookup_empty. Qed.

Lemma snoc_ne (d l : path) : l <> [] -> d ++ l <> [].
Proof. intros Hl E. apply app_eq_nil in E as [_ E]. done. Qed.

Ltac path_goal :=
  first [ assumption
        | subst; unfold ca_dir, lb_dir, server_dir, zato_admin_dir, security_server_dir;
          rewrite <- ?app_assoc; reflexivity ].
Ltac ne_goal :=
  first [ assumption | discriminate | apply snoc_ne; discriminate ].

Ltac sim_ext_leaf :=
  first [ eapply sim_fs_mkdir; [path_goal | ne_goal]
        | eapply sim_fs_write; [path_goal | ne_goal]
        | eapply sim_fs_require_file; path_goal ].

Ltac sim_ext_seq :=
  repeat first [ eapply sim_ebind; [sim_ext_leaf | intros ? ? _] | sim_ext_leaf ].

Lemma sim_create_odb t a : sim_ext t eq (create_odb spec_cmds a) (create_odb spec_cmds a).
Proof. by apply sim_eret. Qed.

Lemma sim_ca_create_ca t dA dB a :
  dA = t ++ dB -> sim_ext t eq (ca_create_ca spec_cmds dA a) (ca_create_ca spec_cmds dB a).
Proof. intros Hd. cbn [ca_create_ca spec_cmds]. unfold spec_ca_create_ca. sim_ext_seq. Qed.

Lemma sim_ca_issue t role dA dB a :
  dA = t ++ dB -> sim_ext t (fa_rel t) (spec_ca_issue role dA a) (spec_ca_issue role dB a).
Proof.
  intros Hd. unfold spec_ca_issue.
  do 4 (eapply sim_ebind; [sim_ext_leaf | intros ? ? _]).
  apply sim_eret. unfold list_to_map. simpl.
  repeat apply fa_rel_insert; try apply fa_rel_empty; (split; [path_goal | ne_goal]).
Qed.

Lemma sim_create_security_server t dA dB a :
  dA = t ++ dB -> dB <> [] ->
  sim_ext t eq (create_security_server spec_cmds dA a) (create_security_server spec_cmds dB a).
Proof.
  intros Hd Hne. cbn [create_security_server spec_cmds].
  unfold spec_create_security_server. sim_ext_seq.
Qed.

Lemma sim_create_lb t dA dB a :
  dA = t ++ dB -> sim_ext t eq (create_lb spec_cmds dA a) (create_lb spec_cmds dB a).
Proof. intros Hd. cbn [create_lb spec_cmds]. unfold spec_create_lb. sim_ext_seq. Qed.

Lemma sim_prepare_directories t dA dB :
  dA = t ++ dB ->
  sim_ext t eq (server_prepare_directories spec_cmds dA) (server_prepare_directories spec_cmds dB).
Proof.
  intros Hd. cbn [server_prepare_directories spec_cmds]. unfold spec_prepare_directories.
  sim_ext_seq.
Qed.

Lemma sim_server_execute t dA dB a :
  dA = t ++ dB -> sim_ext t eq (server_execute spec_cmds dA a) (server_execute spec_cmds dB a).
Proof. intros Hd. cbn [server_execute spec_cmds]. unfold spec_server_execute. sim_ext_seq. Qed.

Lemma sim_create_zato_admin t dA dB a :
  dA = t ++ dB -> sim_ext t eq (create_zato_admin spec_cmds dA a) (create_zato_admin spec_cmds dB a).
Proof. intros Hd. cbn [create_zato_admin spec_cmds]. unfold spec_create_zato_admin. sim_ext_seq. Qed.

Ltac sim_leaf :=
  first [ apply sim_print
        | eapply sim_dict_get; eassumption
        | eapply sim_mkdir; [path_goal | ne_goal]
        | eapply sim_copy2; [path_goal | ne_goal | path_goal | ne_goal]
        | eapply sim_sub_command;
          first [ apply sim_create_odb
                | eapply sim_ca_create_ca; path_goal
                | eapply sim_ca_issue; path_goal
                | eapply sim_create_security_server; [path_goal | ne_goal]
                | eapply sim_create_lb; path_goal
                | eapply sim_prepare_directories; path_goal
                | eapply sim_server_execute; path_goal
                | eapply sim_create_zato_admin; path_goal ] ].

Ltac sim_seq :=
  repeat first
    [ eapply sim_bind;
      [ sim_leaf
      | let x := fresh "x" in let y := fresh "y" in let H := fresh "H" in
        intros x y H;
        try match type of H with path_rel _ _ _ => destruct H as [H ?H]; subst x end ]
    | sim_leaf ].

Lemma sim_create_crypto t a :
  sim_M t (fa4_rel t) (create_crypto spec_cmds t a) (create_crypto spec_cmds [] a).
Proof.
  unfold create_crypto.
  do 3 (eapply sim_bind; [sim_leaf | intros ? ? _]).
  eapply sim_bind; [sim_leaf | intros f1 g1 H1].
  eapply sim_bind; [sim_leaf | intros f2 g2 H2].
  eapply sim_bind; [sim_leaf | intros f3 g3 H3].
  eapply sim_bind; [sim_leaf | intros f4 g4 H4].
  apply sim_ret. simpl. auto.
Qed.

Lemma sim_security_server t a fA fB :
  fa_rel t fA fB ->
  sim_M t eq (install_security_server spec_cmds t a fA) (install_security_server spec_cmds [] a fB).
Proof. intros Hf. unfold install_security_server. sim_seq. Qed.

Lemma sim_lb t a fA fB :
  fa_rel t fA fB -> sim_M t eq (install_lb spec_cmds t a fA) (install_lb spec_cmds [] a fB).
Proof. intros Hf. unfold install_lb. sim_seq. Qed.

Lemma sim_server t a fA fB :
  fa_rel t fA fB -> sim_M t eq (install_server spec_cmds t a fA) (install_server spec_cmds [] a fB).
Proof. intros Hf. unfold install_server. sim_seq. Qed.

Lemma sim_zato_admin t a fA fB :
  fa_rel t fA fB ->
  sim_M t eq (install_zato_admin spec_cmds t a fA) (install_zato_admin spec_cmds [] a fB).
Proof. intros Hf. unfold install_zato_admin. sim_seq. Qed.

(** The components on disk depend only on what lies below the target. *)
Lemma sim_provision t a : sim_M t eq (provision spec_cmds t a) (provision spec_cmds [] a).
Proof.
  unfold provision.
  eapply sim_bind; [apply sim_create_crypto|].
  intros [[[f1 f2] f3] f4] [[[g1 g2] g3] g4] (H1 & H2 & H3 & H4).
  eapply sim_bind; [by apply sim_security_server | intros ? ? _].
  eapply sim_bind; [by apply sim_lb | intros ? ? _].
  eapply sim_bind; [by apply sim_server | intros ? ? _].
  by apply sim_zato_admin.
Qed.

End Relative.

Module FreshRun.
Import RunFacts Phases NextName DbFacts ServerAbort.

Lemma triple_of {A} (o : result A * world * list event) r w :
  res_of o = r -> world_of o = w -> o = (r, w, log_of o).
Proof. destruct o as [[r' w'] l]. unfold res_of, world_of, log_of. simpl. by intros -> ->. Qed.

Lemma strip_pad_prefix (x : string) : exists u, x = sapp (strip_pad x) u.
Proof.
  induction x as [|c s IH]; [by exists EmptyString|].
  destruct IH as [u Hu]. simpl. destruct (strip_pad s) as [|c' r] eqn:E.
  - destruct (Ascii.eqb c " "%char); [by exists (String c s)|]. by exists s.
  - exists u. simpl. by rewrite Hu.
Qed.

(** A name equal to [ZatoQuickstartCluster-#1] under the collation matches
    the quickstart's pattern. *)
Lemma same_name_candidate (ci : bool) (x : string) :
  same_name ci x "ZatoQuickstartCluster-#1" = true ->
  like_on ci "ZatoQuickstartCluster-%" x = true.
Proof.
  destruct ci; unfold same_name, like_on; intros H; apply String.eqb_eq in H.
  - change (lower "ZatoQuickstartCluster-%") with (sapp "zatoquickstartcluster-" "%").
    apply like_literal_prefix; [reflexivity|reflexivity|].
    destruct (strip_pad_prefix x) as [u Hu]. rewrite Hu, lower_app, H.
    by exists (sapp "#1" (lower u)).
  - subst x. reflexivity.
Qed.

Lemma existsb_Z_absent {A} (f : A -> Z) i l :
  ~ In i (map f l) -> existsb (fun x => f x =? i) l = false.
Proof. intros H. apply not_true_iff_false. intros Hx. apply H. by apply existsb_In. Qed.

Lemma existsb_forall_false {A} (f g : A -> bool) (l : list A) :
  Forall (fun x => g x = false) l -> (forall x, f x = true -> g x = true) ->
  existsb f l = false.
Proof.
  intros H Hfg. induction H as [|x l Hx Hl IH]; [done|]. simpl. rewrite IH, orb_false_r.
  destruct (f x) eqn:E; [|done]. rewrite (Hfg x E) in Hx. discriminate.
Qed.

(** The database accepts the rows of a first quickstart cluster. *)
Lemma insert_error_fresh kind cs ss c s :
  Forall (fun c' => is_candidate (case_insensitive kind) c' = false) cs ->
  Forall (fun s' => same_name (case_insensitive kind) (s_name s') (s_name s) = false) ss ->
  c_name c = "ZatoQuickstartCluster-#1" ->
  s_cluster_id s = Some (c_id c) ->
  ~ In (c_id c) (map c_id cs) -> ~ In (s_id s) (map s_id ss) ->
  cluster_values_ok c = true -> cluster_not_null_ok kind c = true ->
  int_ok (s_id s) = true -> str_ok 200 (s_name s) = true ->
  insert_error kind cs ss c s = None.
Proof.
  intros Hc Hs Hcn Hfk Hci Hsi Hv Hn Hsv Hsl.
  assert (Hcv : int_ok (c_id c) = true).
  { unfold cluster_values_ok in Hv.
    repeat match type of Hv with (_ && _) = true => apply andb_true_iff in Hv as [Hv _] end.
    exact Hv. }
  assert (E1 : existsb (fun c' => c_id c' =? c_id c) cs = false) by (by apply existsb_Z_absent).
  assert (E2 : existsb (fun c' => same_name (case_insensitive kind) (c_name c') (c_name c)) cs
               = false).
  { apply (existsb_forall_false _ _ _ Hc). intros x Hx. rewrite Hcn in Hx.
    by apply same_name_candidate. }
  assert (E3 : server_values_ok s = true)
    by (unfold server_values_ok; by rewrite Hsv, Hsl, Hfk, Hcv).
  assert (E4 : existsb (fun s' => s_id s' =? s_id s) ss = false) by (by apply existsb_Z_absent).
  assert (E5 : existsb (fun s' => same_name (case_insensitive kind) (s_name s') (s_name s)) ss
               = false) by (by apply (existsb_forall_false _ _ _ Hs)).
  assert (E6 : existsb (fun c' => c_id c' =? c_id c) (cs ++ [c]) = true)
    by (rewrite existsb_app, E1; simpl; by rewrite Z.eqb_refl).
  unfold insert_error. cbv zeta. rewrite Hv, Hn, E1, E2, E3, E4, E5, Hfk, E6. reflexivity.
Qed.

(** quickstart.py lines 134-160 on a store without a quickstart cluster. *)
Lemma setup_fresh a w :
  db_up w = true ->
  Forall (fun c => is_candidate (case_insensitive (odb_type a)) c = false) (clusters w) ->
  Forall (fun s => same_name (case_insensitive (odb_type a)) (s_name s)
                     "ZatoQuickstartServer-(cluster-#1)" = false) (servers w) ->
  ~ In (cluster_seq w) (map c_id (clusters w)) ->
  ~ In (server_seq w) (map s_id (servers w)) ->
  cluster_values_ok (new_cluster a (cluster_seq w) "ZatoQuickstartCluster-#1") = true ->
  cluster_not_null_ok (odb_type a)
    (new_cluster a (cluster_seq w) "ZatoQuickstartCluster-#1") = true ->
  int_ok (server_seq w) = true ->
  res_of (setup_odb_objects a w) = Ok tt /\
  world_of (setup_odb_objects a w) =
    mk_world (fs w)
      (clusters w ++ [new_cluster a (cluster_seq w) "ZatoQuickstartCluster-#1"])
      (servers w ++ [mk_server (server_seq w) "ZatoQuickstartServer-(cluster-#1)"
                       (Some (cluster_seq w))])
      true (cluster_seq w + 1) (server_seq w + 1).
Proof.
  intros Hu Hc Hs Hci Hsi Hv Hn Hsv.
  assert (Hid : next_cluster_id (case_insensitive (odb_type a)) (clusters w) = Ok 1)
    by (by apply next_cluster_id_none).
  assert (E1 : cluster_name_of quickstart_prefix 1 = "ZatoQuickstartCluster-#1")
    by (vm_compute; reflexivity).
  assert (E2 : server_name_of 1 = "ZatoQuickstartServer-(cluster-#1)")
    by (vm_compute; reflexivity).
  unfold setup_odb_objects.
  cbv [bind print query_clusters of_result ret throw commit_cluster_server res_of world_of].
  rewrite Hu. cbn beta iota. rewrite Hid. cbn beta iota. rewrite E1, E2, Hu. cbn beta iota.
  rewrite insert_error_fresh; try done; try (vm_compute; reflexivity).
Qed.

(** The components, from a filesystem that is the one empty target. *)
Lemma provision_relative a w :
  res_of (provision spec_cmds [] a (set_fs {[ [] := NDir ]} w)) = Ok tt /\
  world_of (provision spec_cmds [] a (set_fs {[ [] := NDir ]} w)) = set_fs fresh_final_fs w.
Proof.
  destruct w as [F cs ss up cq sq]. split; [vm_compute; reflexivity|].
  assert (Hf : map_to_list (fs (world_of (provision spec_cmds [] a
                 (set_fs {[ [] := NDir ]} (mk_world F cs ss up cq sq))))) =
               map_to_list fresh_final_fs) by (vm_compute; reflexivity).
  assert (Hr : let w' := world_of (provision spec_cmds [] a
                           (set_fs {[ [] := NDir ]} (mk_world F cs ss up cq sq))) in
               clusters w' = cs /\ servers w' = ss /\ db_up w' = up /\
               cluster_seq w' = cq /\ server_seq w' = sq)
    by (vm_compute; auto).
  revert Hf Hr.
  destruct (world_of (provision spec_cmds [] a (set_fs {[ [] := NDir ]} (mk_world F cs ss up cq sq))))
    as [F' cs' ss' up' cq' sq'].
  cbn. intros Hf (-> & -> & -> & -> & ->). unfold set_fs. cbn.
  f_equal. apply map_to_list_inj. by rewrite Hf.
Qed.

Lemma child_names_spec d m x :
  fs_get m (d ++ [x]) <> None <-> In x (child_names d m).
Proof.
  unfold child_names, fs_get. rewrite <- list_elem_of_In, list_elem_of_omap. split.
  - destruct (m !! (d ++ [x])) as [v|] eqn:E; [intros _|congruence].
    exists (d ++ [x], v). split; [by apply elem_of_map_to_list|]. simpl.
    rewrite decide_True; [|split; [by destruct d|apply parent_snoc]].
    unfold basename. by rewrite last_last.
  - intros ([p v] & Hin & Hx). simpl in Hx. apply elem_of_map_to_list in Hin.
    case_decide as Hp; [|discriminate]. injection Hx as <-. destruct Hp as [Hn <-].
    unfold parent, basename. rewrite <- app_removelast_last by exact Hn. by rewrite Hin.
Qed.

Lemma fresh_final_children :
  child_names [] fresh_final_fs =
    ["server"; "security-server"; "load-balancer"; "zato-admin"; "ca"].
Proof. vm_compute. reflexivity. Qed.

Lemma fresh_final_role_dirs x :
  In x ["ca"; "security-server"; "load-balancer"; "server"; "zato-admin"] ->
  fs_get fresh_final_fs [x] = Some NDir.
Proof.
  intros H. repeat destruct H as [<-|H]; try contradiction; vm_compute; reflexivity.
Qed.

(** An empty target directory, seen from itself, is the one directory. *)
Lemma seen_empty_target t w :
  fs_get (fs w) t = Some NDir ->
  (forall l, l <> [] -> fs_get (fs w) (t ++ l) = None) ->
  seen_from t w (set_fs {[ [] := NDir ]} w).
Proof.
  intros Ht Hnone. split.
  - intros [|x l]; cbn [fs set_fs]; unfold fs_get.
    + rewrite app_nil_r, lookup_singleton_eq. exact Ht.
    + rewrite lookup_singleton_ne by done. exact (Hnone (x :: l) ltac:(done)).
  - by destruct w.
Qed.

Lemma seen_rows t W m w : seen_from t W (set_fs m w) -> W = set_fs (fs W) w.
Proof. intros [_ He]. etransitivity; [symmetry; exact He|]. by destruct w. Qed.

Lemma summary_eq t w :
  summary t w = (Ok tt, w, log_of (summary t w)).
Proof. reflexivity. Qed.

End FreshRun.
Import FreshRun.

(** C6 (corrected): a run from an empty target directory [t], with a
    reachable database of a kind with a probe query, no [cluster] row
    matching the quickstart's pattern under the database's collation, no
    [server] row whose name equals [ZatoQuickstartServer-(cluster-#1)] under
    that collation, next sequence values not already used as ids, and
    argument values that fit their columns (non-empty on Oracle), succeeds.
    The target then holds exactly the five role directories, and one
    [cluster] row [ZatoQuickstartCluster-#1] and one [server] row
    [ZatoQuickstartServer-(cluster-#1)] referencing it have been added. *)
Theorem quickstart_fresh_store (t : path) (a : args) (w : world) :
  (exists q, ping_queries !! odb_type a = Some q) ->
  db_up w = true ->
  fs_get (fs w) t = Some NDir ->
  (forall l, l <> [] -> fs_get (fs w) (t ++ l) = None) ->
  Forall (fun c => is_candidate (case_insensitive (odb_type a)) c = false) (clusters w) ->
  Forall (fun s => same_name (case_insensitive (odb_type a)) (s_name s)
                     "ZatoQuickstartServer-(cluster-#1)" = false) (servers w) ->
  ~ In (cluster_seq w) (map c_id (clusters w)) ->
  ~ In (server_seq w) (map s_id (servers w)) ->
  cluster_values_ok (new_cluster a (cluster_seq w) "ZatoQuickstartCluster-#1") = true ->
  cluster_not_null_ok (odb_type a)
    (new_cluster a (cluster_seq w) "ZatoQuickstartCluster-#1") = true ->
  int_ok (server_seq w) = true ->
  res_of (body spec_cmds t a w) = Ok tt /\
  res_of (execute spec_cmds t a w) = Ok tt /\
  (forall x,
     fs_get (fs (world_of (execute spec_cmds t a w))) (t ++ [x]) <> None <->
     In x ["ca"; "security-server"; "load-balancer"; "server"; "zato-admin"]) /\
  (forall x,
     In x ["ca"; "security-server"; "load-balancer"; "server"; "zato-admin"] ->
     fs_get (fs (world_of (execute spec_cmds t a w))) (t ++ [x]) = Some NDir) /\
  exists c s,
    clusters (world_of (execute spec_cmds t a w)) = clusters w ++ [c] /\
    servers (world_of (execute spec_cmds t a w)) = servers w ++ [s] /\
    c_name c = "ZatoQuickstartCluster-#1" /\
    s_name s = "ZatoQuickstartServer-(cluster-#1)" /\
    s_cluster_id s = Some (c_id c).
Proof.
  intros Hq Hu Ht Hnone Hc Hs Hci Hsi Hv Hn Hsv.
  pose proof (ping_phase_cases a w) as [Hw1 Hcases].
  destruct Hcases as [(Hq' & _)|[(_ & Hd & _)|(_ & _ & Hr1 & _)]].
  { destruct Hq as [q Hq]. congruence. }
  { congruence. }
  pose proof (triple_of _ _ _ Hr1 Hw1) as E1.
  destruct (Relative.sim_provision t a w _ (seen_empty_target t w Ht Hnone)) as [Hpr Hpw].
  destruct (provision_relative a w) as [HrB HwB].
  rewrite HrB in Hpr. rewrite HwB in Hpw.
  assert (Hr2 : res_of (provision spec_cmds t a w) = Ok tt).
  { destruct (res_of (provision spec_cmds t a w)) as [[]|]; [done|contradiction]. }
  set (W1 := world_of (provision spec_cmds t a w)) in *.
  pose proof (triple_of _ _ _ Hr2 eq_refl) as E2. fold W1 in E2.
  rewrite (seen_rows _ _ _ _ Hpw) in E2.
  destruct (setup_fresh (set_names a) (set_fs (fs W1) w) Hu Hc Hs Hci Hsi Hv Hn Hsv)
    as [Hr3 Hw3].
  pose proof (triple_of _ _ _ Hr3 Hw3) as E3.
  set (W3 := mk_world (fs (set_fs (fs W1) w)) _ _ true _ _) in E3.
  assert (Hbody : body spec_cmds t a w = (Ok tt, W3, log_of (body spec_cmds t a w))).
  { apply triple_of.
    - unfold body. rewrite (bind_ok_eq _ _ _ _ _ _ E1). cbn beta. rewrite res3.
      rewrite (bind_ok_eq _ _ _ _ _ _ E2). cbn beta. rewrite res3.
      rewrite (bind_ok_eq _ _ _ _ _ _ E3). cbn beta. rewrite res3.
      rewrite summary_eq. reflexivity.
    - unfold body. rewrite (bind_ok_eq _ _ _ _ _ _ E1). cbn beta. rewrite world3.
      rewrite (bind_ok_eq _ _ _ _ _ _ E2). cbn beta. rewrite world3.
      rewrite (bind_ok_eq _ _ _ _ _ _ E3). cbn beta. rewrite world3.
      rewrite summary_eq. reflexivity. }
  assert (Hexec : execute spec_cmds t a w = (Ok tt, W3, log_of (body spec_cmds t a w))).
  { unfold execute, handle. rewrite Hbody. reflexivity. }
  assert (Hfs : forall x, fs_get (fs W3) (t ++ [x]) = fs_get fresh_final_fs [x]).
  { intros x. exact (Relative.seen_get _ _ _ [x] Hpw). }
  rewrite Hexec, Hbody, ?res3, ?world3.
  split; [reflexivity|]. split; [reflexivity|]. split; [|split].
  - intros x. rewrite Hfs. rewrite (child_names_spec [] fresh_final_fs x).
    rewrite fresh_final_children. simpl. tauto.
  - intros x Hx. rewrite Hfs. by apply fresh_final_role_dirs.
  - eexists _, _. split; [reflexivity|]. split; [reflexivity|].
    split; [reflexivity|]. split; reflexivity.
Qed.

(** C6: the example run from the empty [/home/zato/qs] adds one cluster
    and one server referencing it. *)
Lemma quickstart_fresh_store_witness :
  exists c s,
    clusters (world_of (execute spec_cmds example_target example_args
                          (example_world [] [] true))) = [] ++ [c] /\
    servers (world_of (execute spec_cmds example_target example_args
                         (example_world [] [] true))) = [] ++ [s] /\
    c_name c = "ZatoQuickstartCluster-#1" /\
    s_name s = "ZatoQuickstartServer-(cluster-#1)" /\
    s_cluster_id s = Some (c_id c).
Proof.
  destruct (quickstart_fresh_store example_target example_args (example_world [] [] true))
    as (_ & _ & _ & _ & H).
  - exists "SELECT 1". vm_compute. reflexivity.
  - reflexivity.
  - vm_compute. reflexivity.
  - intros [|y l] Hl; [contradiction|]. unfold fs_get. apply not_elem_of_list_to_map_1.
    intros Hin. simpl in Hin. rewrite !elem_of_cons, elem_of_nil in Hin.
    destruct Hin as [H|[H|[H|[H|[]]]]];
      apply (f_equal length) in H; simpl in H; rewrite ?length_app in H; simpl in H; lia.
  - constructor.
  - constructor.
  - intros [].
  - intros [].
  - vm_compute. reflexivity.
  - vm_compute. reflexivity.
  - vm_compute. reflexivity.
  - exact H.
Defined.

(** C6, counterexample: a [server] row already named
    [ZatoQuickstartServer-(cluster-#1)], in a store without any cluster,
    makes the commit fail on [UniqueConstraint('name')]; no row is added. *)
Lemma quickstart_server_name_taken :
  res_of (body spec_cmds example_target example_args
            (example_world [] [example_taken_server] true)) = Raise (PyExc IntegrityError) /\
  clusters (world_of (execute spec_cmds example_target example_args
                        (example_world [] [example_taken_server] true))) = [] /\
  servers (world_of (execute spec_cmds example_target example_args
                       (example_world [] [example_taken_server] true))) = [example_taken_server].
Proof. split; [|split]; vm_compute; reflexivity. Qed.

(** ** The order of the zato.cli commands *)

Module CallOrder.
Import RunFacts ServerAbort.

Lemma subcommand_calls_app l1 l2 :
  subcommand_calls (l1 ++ l2) = subcommand_calls l1 ++ subcommand_calls l2.
Proof. apply omap_app. Qed.

Lemma subcommand_calls_output l :
  Forall (fun ev => is_output ev = true) l -> subcommand_calls l = [].
Proof. induction 1 as [|ev l Hev _ IH]; [done|]. destruct ev; try discriminate; exact IH. Qed.

Lemma calls_bind {A B} L1 L2 L (m : M A) (k : A -> M B) :
  calls_within L1 m -> (forall x, calls_within L2 (k x)) -> L = L1 ++ L2 ->
  calls_within L (bind m k).
Proof.
  intros Hm Hk -> w. specialize (Hm w).
  destruct (m w) as [[[x|e] w1] l1] eqn:E.
  - rewrite (bind_ok_eq _ _ _ _ _ _ E), res3, log3.
    rewrite res3, log3 in Hm. destruct Hm as [_ Heq]. specialize (Heq x eq_refl).
    rewrite subcommand_calls_app, Heq. destruct (Hk x w1) as [Hp He]. split.
    + by apply prefix_app.
    + intros y Hy. by rewrite (He y Hy).
  - rewrite (bind_raise_eq _ _ _ _ _ _ E), res3, log3.
    rewrite log3 in Hm. destruct Hm as [Hp _]. split; [by apply prefix_app_r|discriminate].
Qed.

Lemma calls_none {A} (m : M A) :
  (forall w, subcommand_calls (log_of (m w)) = []) -> calls_within [] m.
Proof. intros H w. rewrite H. split; [reflexivity|done]. Qed.

Lemma calls_sub_command {A} name d (e : ext A) :
  calls_within [(name, d)] (sub_command name d e).
Proof.
  intros w. unfold sub_command. destruct (e w) as [r w'].
  split; [reflexivity|intros; reflexivity].
Qed.

Lemma calls_mkdir p : calls_within [] (mkdir p).
Proof. apply calls_none. intros w. destruct (mkdir_cases p w) as [-> _]. reflexivity. Qed.

Lemma calls_copy2 src dst : calls_within [] (copy2 src dst).
Proof.
  apply calls_none. intros w.
  destruct (copy2_cases src dst w) as (d' & st & _ & -> & _). reflexivity.
Qed.

Lemma calls_dict_get {V} (d : gmap string V) k : calls_within [] (dict_get d k).
Proof. apply calls_none. intros w. unfold dict_get. case_match; reflexivity. Qed.

Lemma calls_of_result {A} (r : result A) : calls_within [] (of_result r).
Proof. apply calls_none. intros w. destruct r; reflexivity. Qed.

Lemma calls_ping a : calls_within [] (ping a).
Proof.
  eapply calls_bind; [apply calls_dict_get| |reflexivity].
  intros q. apply calls_none. intros w. destruct (db_up w); reflexivity.
Qed.

Lemma calls_query : calls_within [] query_clusters.
Proof. apply calls_none. intros w. unfold query_clusters. destruct (db_up w); reflexivity. Qed.

Lemma calls_commit a cn sn : calls_within [] (commit_cluster_server a cn sn).
Proof.
  apply calls_none. intros w. unfold commit_cluster_server. cbv zeta.
  repeat case_match; reflexivity.
Qed.

Ltac calls_tac :=
  cbv beta;
  lazymatch goal with
  | |- calls_within _ (bind _ _) =>
      eapply calls_bind; [calls_tac | intros ?; calls_tac | reflexivity]
  | |- calls_within _ (match ?x with _ => _ end) =>
      destruct x as [[[? ?] ?] ?]; calls_tac
  | |- calls_within _ (sub_command _ _ _) => apply calls_sub_command
  | |- calls_within _ (mkdir _) => apply calls_mkdir
  | |- calls_within _ (copy2 _ _) => apply calls_copy2
  | |- calls_within _ (dict_get _ _) => apply calls_dict_get
  | |- calls_within _ (of_result _) => apply calls_of_result
  | |- calls_within _ (ping _) => apply calls_ping
  | |- calls_within _ query_clusters => apply calls_query
  | |- calls_within _ (commit_cluster_server _ _ _) => apply calls_commit
  | |- calls_within _ _ => apply calls_none; intros ?; reflexivity
  end.

Lemma calls_ping_phase a : calls_within [] (ping_phase a).
Proof. unfold ping_phase. calls_tac. Qed.

Lemma calls_body cmds t a :
  calls_within
    [("create_odb", []); ("ca_create_ca", ca_dir t); ("ca_create_lb_agent", ca_dir t);
     ("ca_create_server", ca_dir t); ("ca_create_zato_admin", ca_dir t);
     ("ca_create_security_server", ca_dir t);
     ("create_security_server", security_server_dir t); ("create_lb", lb_dir t);
     ("server_prepare_directories", server_dir t); ("server_execute", server_dir t);
     ("create_zato_admin", zato_admin_dir t)]
    (body cmds t a).
Proof.
  unfold body, ping_phase, provision, create_crypto, install_security_server, install_lb,
    install_server, install_zato_admin, setup_odb_objects, summary.
  cbv zeta. calls_tac.
Qed.

End CallOrder.

(** X: whatever the zato.cli commands do, a run invokes them in one fixed
    order, each once: [create_odb], the five [ca_create_*] commands in the
    CA directory, then the security server's, the load balancer's, the
    server's two and the web console's command in their directories. A run
    that stops early has invoked an initial part of this sequence; a run
    whose body completes has invoked all of it. *)
Theorem run_subcommand_order (cmds : sub_commands) (t : path) (a : args) (w : world) :
  subcommand_calls (log_of (execute cmds t a w)) `prefix_of`
    [("create_odb", []); ("ca_create_ca", ca_dir t); ("ca_create_lb_agent", ca_dir t);
     ("ca_create_server", ca_dir t); ("ca_create_zato_admin", ca_dir t);
     ("ca_create_security_server", ca_dir t);
     ("create_security_server", security_server_dir t); ("create_lb", lb_dir t);
     ("server_prepare_directories", server_dir t); ("server_execute", server_dir t);
     ("create_zato_admin", zato_admin_dir t)] /\
  (res_of (body cmds t a w) = Ok tt ->
   subcommand_calls (log_of (execute cmds t a w)) =
    [("create_odb", []); ("ca_create_ca", ca_dir t); ("ca_create_lb_agent", ca_dir t);
     ("ca_create_server", ca_dir t); ("ca_create_zato_admin", ca_dir t);
     ("ca_create_security_server", ca_dir t);
     ("create_security_server", security_server_dir t); ("create_lb", lb_dir t);
     ("server_prepare_directories", server_dir t); ("server_execute", server_dir t);
     ("create_zato_admin", zato_admin_dir t)]).
Proof.
  destruct (RunFacts.handle_log (body cmds t a) w) as (tail & Ht & Hout).
  unfold execute. rewrite Ht, CallOrder.subcommand_calls_app,
    (CallOrder.subcommand_calls_output _ Hout), app_nil_r.
  destruct (CallOrder.calls_body cmds t a w) as [H1 H2].
  split; [exact H1|]. intros H. exact (H2 tt H).
Qed.

(** X: the run of the example from an empty target invokes all eleven
    commands. *)
Lemma run_subcommand_order_witness :
  subcommand_calls (log_of (execute spec_cmds example_target example_args
                              (example_world [] [] true))) =
    [("create_odb", []); ("ca_create_ca", ca_dir example_target);
     ("ca_create_lb_agent", ca_dir example_target);
     ("ca_create_server", ca_dir example_target);
     ("ca_create_zato_admin", ca_dir example_target);
     ("ca_create_security_server", ca_dir example_target);
     ("create_security_server", security_server_dir example_target);
     ("create_lb", lb_dir example_target);
     ("server_prepare_directories", server_dir example_target);
     ("server_execute", server_dir example_target);
     ("create_zato_admin", zato_admin_dir example_target)].
Proof.
  apply (proj2 (run_subcommand_order spec_cmds example_target example_args
                  (example_world [] [] true))).
  vm_compute. reflexivity.
Defined.

(** ** A run as a whole *)

Module WholeRun.
Import RunFacts Phases NextName DbFacts ServerAbort CallOrder.

Lemma below_role (t : path) x p : (t ++ [x]) `prefix_of` p -> t `prefix_of` p.
Proof. intros H. etransitivity; [|exact H]. apply prefix_app_r. reflexivity. Qed.

Ltac below_tac := first [reflexivity | apply prefix_app_r; below_tac].

Lemma setup_fs a w : fs (world_of (setup_odb_objects a w)) = fs w.
Proof. destruct (setup_cases a w) as [(n & _ & _ & _ & _ & ->) | (e & _ & ->)]; reflexivity. Qed.

Lemma setup_db_ok a w :
  db_ok (clusters w) (servers w) ->
  db_ok (clusters (world_of (setup_odb_objects a w)))
        (servers (world_of (setup_odb_objects a w))).
Proof.
  intros Hok.
  destruct (setup_cases a w) as [(n & _ & _ & Hi & _ & ->) | (e & _ & ->)]; [|exact Hok].
  exact (db_ok_insert _ _ _ _ _ Hi Hok).
Qed.

Lemma ensures_bind_and {A B} (Q1 Q2 : world -> Prop) (m : M A) (k : A -> M B) :
  ensures Q1 m -> (forall x, stable Q1 (k x)) -> (forall x, ensures Q2 (k x)) ->
  ensures (fun w => Q1 w /\ Q2 w) (bind m k).
Proof.
  intros H1 H2 H3 w y. destruct (m w) as [[[x|e] w1] l1] eqn:E.
  - rewrite (bind_ok_eq _ _ _ _ _ _ E), res3, world3. intros Hy. split.
    + apply (H2 x w1). specialize (H1 w x). rewrite E in H1. exact (H1 eq_refl).
    + exact (H3 x w1 y Hy).
  - rewrite (bind_raise_eq _ _ _ _ _ _ E), res3. discriminate.
Qed.

Lemma spec_cmds_well_behaved : well_behaved spec_cmds.
Proof.
  constructor; simpl.
  - intros a. apply ext_frame_ret.
  - intros d a. unfold spec_ca_create_ca. ext_frame_tac.
  - apply spec_issue_frame.
  - apply spec_issue_frame.
  - apply spec_issue_frame.
  - apply spec_issue_frame.
  - intros d a. unfold spec_create_security_server. ext_frame_tac.
  - apply spec_security_server_dir.
  - intros d a. unfold spec_create_lb. ext_frame_tac.
  - intros d. unfold spec_prepare_directories. ext_frame_tac.
  - intros d a. unfold spec_server_execute. ext_frame_tac.
  - intros d a. unfold spec_create_zato_admin. ext_frame_tac.
Qed.

Ltac missing_tac :=
  repeat (cbv beta;
  match goal with
  | |- fails_on_missing_source (bind _ _) => apply missing_source_bind; [|intros ?]
  | |- fails_on_missing_source (match ?x with _ => _ end) => destruct x as [[[? ?] ?] ?]
  | |- fails_on_missing_source (copy2 _ _) => apply missing_source_copy2
  | |- fails_on_missing_source (sub_command _ _ _) =>
      apply missing_source_no_copy, avoid_sub_command
  | |- fails_on_missing_source (dict_get _ _) => apply missing_source_no_copy, avoid_dict_get
  | |- fails_on_missing_source (mkdir _) => apply missing_source_no_copy, avoid_mkdir
  | |- fails_on_missing_source (ret _) => apply missing_source_no_copy, avoid_ret
  end).

Lemma missing_body cmds t a : fails_on_missing_source (body cmds t a).
Proof.
  unfold body. apply missing_source_bind; [apply missing_source_no_copy, avoid_ping_phase|intros _].
  apply missing_source_bind; [|intros _].
  - unfold provision, create_crypto, install_security_server, install_lb, install_server,
      install_zato_admin. cbv zeta. missing_tac.
  - apply missing_source_bind; [apply missing_source_no_copy, avoid_setup|intros _].
    apply missing_source_no_copy, avoid_summary.
Qed.

Section Target.

Variable cmds : sub_commands.
Variable t : path.
Hypothesis Hwb : well_behaved cmds.

Let own (p : path) : Prop := t `prefix_of` p.

Ltac tframe_step :=
  cbv beta;
  match goal with
  | |- preserves _ (bind _ _) =>
      apply (preserves_bind _ (frame_trans _)); [|intros ?]
  | |- preserves _ (match ?x with _ => _ end) => destruct x as [[[? ?] ?] ?]
  | |- preserves _ (ret _) => apply frame_pure; reflexivity
  | |- preserves _ (dict_get _ _) =>
      apply frame_pure; intros ?; unfold dict_get; case_match; reflexivity
  | |- preserves _ (mkdir _) =>
      apply frame_mkdir; unfold own, ca_dir, security_server_dir, lb_dir, server_dir,
        zato_admin_dir; below_tac
  | |- preserves _ (copy2 _ _) =>
      apply frame_copy2; unfold own, ca_dir, security_server_dir, lb_dir, server_dir,
        zato_admin_dir; below_tac
  | |- preserves _ (sub_command _ _ _) =>
      eapply frame_ext; [apply Hwb|]; intros ? Hp; cbn [under] in Hp; unfold own;
      first [eapply below_role; exact Hp | destruct Hp]
  end.

Lemma frame_provision_t a : preserves (frame own) (provision cmds t a).
Proof.
  unfold provision, create_crypto, install_security_server, install_lb, install_server,
    install_zato_admin.
  cbv zeta. repeat tframe_step.
Qed.

Lemma ensures_server_t a fa :
  ensures (fun w => fs_get (fs w) (server_dir t) = Some NDir) (install_server cmds t a fa).
Proof.
  unfold install_server. apply ensures_bind_first; [apply ensures_mkdir|]. intros _.
  apply (stable_dir own). repeat tframe_step.
Qed.

Lemma ensures_zato_admin_t a fa :
  ensures (fun w => fs_get (fs w) (zato_admin_dir t) = Some NDir)
    (install_zato_admin cmds t a fa).
Proof.
  unfold install_zato_admin. apply ensures_bind_first; [apply ensures_mkdir|]. intros _.
  apply (stable_dir own). repeat tframe_step.
Qed.

Lemma ensures_provision a :
  ensures (fun w => fs_get (fs w) (ca_dir t) = Some NDir /\
                    (fs_get (fs w) (security_server_dir t) = Some NDir /\
                     (fs_get (fs w) (lb_dir t) = Some NDir /\
                      (fs_get (fs w) (server_dir t) = Some NDir /\
                       fs_get (fs w) (zato_admin_dir t) = Some NDir))))
    (provision cmds t a).
Proof.
  unfold provision. cbv zeta.
  apply ensures_bind_and.
  - apply ensures_crypto. exact Hwb.
  - intros [[[? ?] ?] ?]. apply (stable_dir own).
    unfold install_security_server, install_lb, install_server, install_zato_admin.
    repeat tframe_step.
  - intros [[[? ?] ?] ?]. cbv beta iota. apply ensures_bind_and.
    + apply ensures_security_server. exact Hwb.
    + intros _. apply (stable_dir own).
      unfold install_lb, install_server, install_zato_admin. repeat tframe_step.
    + intros _. apply ensures_bind_and.
      * apply ensures_lb. exact Hwb.
      * intros _. apply (stable_dir own).
        unfold install_server, install_zato_admin. repeat tframe_step.
      * intros _. apply ensures_bind_and.
        -- apply ensures_server_t.
        -- intros _. apply (stable_dir own). unfold install_zato_admin. repeat tframe_step.
        -- intros _. apply ensures_zato_admin_t.
Qed.

(** The two ways a body ends: before the ODB step, with only the frame of
    the provisioning changed, or with the outcome of the ODB step run on
    the world the provisioning left. *)
Lemma body_cases a w :
  ((exists e, res_of (body cmds t a w) = Raise e) /\ frame own w (world_of (body cmds t a w))) \/
  (res_of (provision cmds t a w) = Ok tt /\
   frame own w (world_of (provision cmds t a w)) /\
   res_of (body cmds t a w) =
     res_of (setup_odb_objects (set_names a) (world_of (provision cmds t a w))) /\
   world_of (body cmds t a w) =
     world_of (setup_odb_objects (set_names a) (world_of (provision cmds t a w)))).
Proof.
  unfold body.
  destruct (ping_phase_cases a w) as [Hw _].
  destruct (ping_phase a w) as [[[u|e] w0] l0] eqn:E0; rewrite world3 in Hw; subst w0.
  2:{ left. rewrite (bind_raise_eq _ _ _ _ _ _ E0), res3, world3.
      split; [eauto|apply frame_refl]. }
  rewrite (bind_ok_eq _ _ _ _ _ _ E0), res3, world3. cbn beta.
  pose proof (frame_provision_t a w) as Fp.
  destruct (provision cmds t a w) as [[[u1|e1] w1] l1] eqn:E1; rewrite world3 in Fp.
  2:{ left. rewrite (bind_raise_eq _ _ _ _ _ _ E1), res3, world3. split; [eauto|exact Fp]. }
  right. rewrite res3, world3. destruct u1. split; [reflexivity|]. split; [exact Fp|].
  rewrite (bind_ok_eq _ _ _ _ _ _ E1), res3, world3. cbn beta.
  destruct (setup_odb_objects (set_names a) w1) as [[[u2|e2] w2] l2] eqn:E2.
  - rewrite (bind_ok_eq _ _ _ _ _ _ E2), !res3, !world3. destruct u2. split; reflexivity.
  - rewrite (bind_raise_eq _ _ _ _ _ _ E2), !res3, !world3. split; reflexivity.
Qed.

(** [os.mkdir(ca_dir)] refuses a target that is not a directory or that
    already holds [ca]: only [create_odb] has run, and it changed nothing. *)
Lemma body_blocked a w :
  res_of (ping_phase a w) = Ok tt ->
  fs_get (fs w) (ca_dir t) <> None \/ fs_get (fs w) t <> Some NDir ->
  (exists e, res_of (body cmds t a w) = Raise e) /\
  (fst (create_odb cmds (set_names a) w) = Ok tt ->
   res_of (body cmds t a w) = Raise (PyExc OSError)) /\
  fs (world_of (body cmds t a w)) = fs w /\
  same_rows w (world_of (body cmds t a w)) /\
  subcommand_calls (log_of (body cmds t a w)) = [("create_odb", [])].
Proof.
  intros Hp Hb.
  destruct (ping_phase_cases a w) as [Hw _].
  pose proof (triple_of _ _ _ Hp Hw) as E0.
  destruct (calls_ping_phase a w) as [_ Hc0]. specialize (Hc0 tt Hp).
  set (l0 := log_of (ping_phase a w)) in *.
  pose proof (wb_create_odb cmds Hwb (set_names a) w) as Fo.
  destruct (create_odb cmds (set_names a) w) as [r1 w1] eqn:Eo. simpl in Fo.
  destruct Fo as [Hrows [_ Hch]].
  assert (Hfs : fs w1 = fs w).
  { apply map_eq. intros p. destruct (decide (fs_get (fs w1) p = fs_get (fs w) p)) as [E|E].
    - exact E.
    - destruct (Hch p E). }
  assert (Hsub : sub_command "create_odb" [] (create_odb cmds (set_names a)) w =
                 (r1, w1, [EvSubCommand "create_odb" []]))
    by (unfold sub_command; rewrite Eo; reflexivity).
  assert (Hcr : exists e, create_crypto cmds t (set_names a) w =
                  (Raise e, w1, [EvSubCommand "create_odb" []] ++
                     match r1 with Ok _ => [EvMkdir (ca_dir t) false] | Raise _ => [] end) /\
                  (r1 = Ok tt -> e = PyExc OSError)).
  { unfold create_crypto. destruct r1 as [u|e].
    - assert (Hmk : mkdir (ca_dir t) w1 =
                    (Raise (PyExc OSError), w1, [EvMkdir (ca_dir t) false])).
      { unfold mkdir, fs_mkdir. rewrite Hfs.
        destruct (fs_get (fs w) (ca_dir t)) as [n|] eqn:Ec; [reflexivity|].
        unfold ca_dir. rewrite parent_snoc.
        destruct Hb as [Hb|Hb]; [congruence|].
        destruct (fs_get (fs w) t) as [[|?]|]; [congruence|reflexivity|reflexivity]. }
      exists (PyExc OSError). split; [|intros _; reflexivity].
      rewrite (bind_ok_eq _ _ _ _ _ _ Hsub). cbn beta.
      rewrite (bind_raise_eq _ _ _ _ _ _ Hmk). reflexivity.
    - exists e. split; [|discriminate].
      rewrite (bind_raise_eq _ _ _ _ _ _ Hsub), app_nil_r. reflexivity. }
  destruct Hcr as (e & Hcr & He).
  assert (Hpr : provision cmds t a w =
                (Raise e, w1, [EvSubCommand "create_odb" []] ++
                   match r1 with Ok _ => [EvMkdir (ca_dir t) false] | Raise _ => [] end)).
  { unfold provision. cbv zeta. rewrite (bind_raise_eq _ _ _ _ _ _ Hcr). reflexivity. }
  unfold body. rewrite (bind_ok_eq _ _ _ _ _ _ E0). cbn beta.
  rewrite (bind_raise_eq _ _ _ _ _ _ Hpr), !res3, !world3, !log3.
  split; [eauto|]. split; [simpl; intros Hr; f_equal; exact (He Hr)|].
  split; [exact Hfs|]. split; [exact Hrows|].
  rewrite !subcommand_calls_app, Hc0. destruct r1; reflexivity.
Qed.

End Target.

End WholeRun.

(** X: with zato.cli commands that keep to their directories, a run
    removes no directory and changes the filesystem only below its target
    directory. *)
Theorem run_changes_only_target (cmds : sub_commands) (t : path) (a : args) (w : world) :
  well_behaved cmds ->
  keeps_dirs w (world_of (execute cmds t a w)) /\
  changes_only (fun p => t `prefix_of` p) w (world_of (execute cmds t a w)).
Proof.
  intros Hwb. unfold execute. rewrite RunFacts.handle_world.
  destruct (WholeRun.body_cases cmds t Hwb a w)
    as [[_ (_ & Hd & Hc)] | (_ & (_ & Hd & Hc) & _ & ->)].
  - split; [exact Hd|exact Hc].
  - unfold keeps_dirs, changes_only in *. rewrite WholeRun.setup_fs. split; [exact Hd|exact Hc].
Qed.

(** X: the example run from an empty target keeps the directories it
    found and writes only below [/home/zato/qs]. *)
Lemma run_changes_only_target_witness :
  keeps_dirs (example_world [] [] true)
    (world_of (execute spec_cmds example_target example_args (example_world [] [] true))) /\
  changes_only (fun p => example_target `prefix_of` p) (example_world [] [] true)
    (world_of (execute spec_cmds example_target example_args (example_world [] [] true))).
Proof.
  apply run_changes_only_target. apply WholeRun.spec_cmds_well_behaved.
Defined.

(** X: with zato.cli commands that write no row, a run whose body raises
    leaves the [cluster] and [server] rows as they were; a run whose body
    completes has appended exactly one Cluster and one Server referencing
    it, named after the number [n] computed from the rows present at the
    start. Either way a store satisfying the schema's constraints still
    satisfies them. *)
Theorem run_rows (cmds : sub_commands) (t : path) (a : args) (w : world) :
  well_behaved cmds ->
  (forall e, res_of (body cmds t a w) = Raise e -> same_rows w (world_of (execute cmds t a w))) /\
  (res_of (body cmds t a w) = Ok tt ->
   exists n c s,
     next_cluster_id (case_insensitive (odb_type a)) (clusters w) = Ok n /\
     clusters (world_of (execute cmds t a w)) = clusters w ++ [c] /\
     servers (world_of (execute cmds t a w)) = servers w ++ [s] /\
     c_name c = cluster_name_of quickstart_prefix n /\
     s_name s = server_name_of n /\
     s_cluster_id s = Some (c_id c)) /\
  (db_ok (clusters w) (servers w) ->
   db_ok (clusters (world_of (execute cmds t a w))) (servers (world_of (execute cmds t a w)))).
Proof.
  intros Hwb. unfold execute. rewrite !RunFacts.handle_world.
  destruct (WholeRun.body_cases cmds t Hwb a w)
    as [[(e & He) ((Hc & Hs) & _)] | (_ & ((Hc & Hs) & _) & Hr & Hw)].
  - rewrite He. split; [intros _ _; split; assumption|]. split; [discriminate|].
    intros Hok. rewrite Hc, Hs. exact Hok.
  - rewrite Hr, Hw. set (w1 := world_of (provision cmds t a w)) in *.
    split; [|split].
    + intros e. destruct (DbFacts.setup_cases (set_names a) w1)
        as [(n & _ & _ & _ & -> & _) | (e' & -> & ->)]; [discriminate|].
      intros _. split; assumption.
    + intros Hok. destruct (DbFacts.setup_cases (set_names a) w1)
        as [(n & _ & Hn & _ & _ & ->) | (e' & He & _)]; [|congruence].
      rewrite Hc in Hn. exists n. eexists _, _. simpl. rewrite Hc, Hs.
      split; [exact Hn|]. repeat split.
    + intros Hok. apply WholeRun.setup_db_ok. rewrite Hc, Hs. exact Hok.
Qed.

(** X: the example run appends its two rows to an empty store. *)
Lemma run_rows_witness :
  exists n c s,
    next_cluster_id false [] = Ok n /\
    clusters (world_of (execute spec_cmds example_target example_args
                          (example_world [] [] true))) = [] ++ [c] /\
    servers (world_of (execute spec_cmds example_target example_args
                         (example_world [] [] true))) = [] ++ [s] /\
    c_name c = cluster_name_of quickstart_prefix n /\
    s_name s = server_name_of n /\
    s_cluster_id s = Some (c_id c).
Proof.
  apply (proj1 (proj2 (run_rows spec_cmds example_target example_args
                         (example_world [] [] true) WholeRun.spec_cmds_well_behaved))).
  vm_compute. reflexivity.
Defined.

(** X: once the database answers the probe, a target directory that does
    not exist, or that already holds a [ca] entry (an earlier run's
    output), stops the run at [os.mkdir(ca_dir)]: the body raises, with
    [OSError] when [create_odb] returned, and with commands that keep to
    their directories no file or row has changed; [create_odb] is the only
    zato.cli command invoked. *)
Theorem run_refuses_target (cmds : sub_commands) (t : path) (a : args) (w : world) :
  well_behaved cmds ->
  res_of (ping_phase a w) = Ok tt ->
  fs_get (fs w) (ca_dir t) <> None \/ fs_get (fs w) t <> Some NDir ->
  (exists e, res_of (body cmds t a w) = Raise e) /\
  (fst (create_odb cmds (set_names a) w) = Ok tt ->
   res_of (body cmds t a w) = Raise (PyExc OSError)) /\
  fs (world_of (execute cmds t a w)) = fs w /\
  same_rows w (world_of (execute cmds t a w)) /\
  subcommand_calls (log_of (execute cmds t a w)) = [("create_odb", [])].
Proof.
  intros Hwb Hp Hb.
  destruct (WholeRun.body_blocked cmds t Hwb a w Hp Hb) as (He & Ho & Hfs & Hrows & Hcalls).
  destruct (RunFacts.handle_log (body cmds t a) w) as (tail & Ht & Hout).
  unfold execute. rewrite !RunFacts.handle_world, Ht, CallOrder.subcommand_calls_app,
    (CallOrder.subcommand_calls_output _ Hout), app_nil_r.
  auto.
Qed.

(** X: a second run into the example target, whose [ca] directory is
    already there, fails with [OSError]. *)
Lemma run_refuses_target_witness :
  res_of (body spec_cmds example_target example_args example_used_world) =
    Raise (PyExc OSError).
Proof.
  destruct (run_refuses_target spec_cmds example_target example_args example_used_world)
    as (_ & H & _).
  - apply WholeRun.spec_cmds_well_behaved.
  - vm_compute. reflexivity.
  - left. vm_compute. discriminate.
  - apply H. reflexivity.
Defined.

(** X: a copy whose source file is missing, wherever it occurs in the
    run, makes the body stop with [IOError], which the handler catches;
    with commands that write no row, no [cluster] or [server] row has been
    added. *)
Theorem run_missing_copy_source (cmds : sub_commands) (t : path) (a : args) (w : world)
    (src dst : path) :
  well_behaved cmds ->
  In (EvCopy src dst CopyNoSrc) (log_of (body cmds t a w)) ->
  res_of (body cmds t a w) = Raise (PyExc IOError) /\
  res_of (execute cmds t a w) = Ok tt /\
  same_rows w (world_of (execute cmds t a w)).
Proof.
  intros Hwb Hin.
  pose proof (WholeRun.missing_body cmds t a w src dst Hin) as Hr.
  split; [exact Hr|]. split.
  - unfold execute, handle. unfold res_of in Hr.
    destruct (body cmds t a w) as [[r w'] l]. simpl in Hr. subst r. reflexivity.
  - unfold execute. rewrite RunFacts.handle_world.
    destruct (WholeRun.body_cases cmds t Hwb a w)
      as [[_ (Hrows & _)] | (_ & (Hrows & _) & Hr' & ->)]; [exact Hrows|].
    rewrite Hr in Hr'.
    destruct (DbFacts.setup_cases (set_names a) (world_of (provision cmds t a w)))
      as [(n & _ & _ & _ & Hok & _) | (e & _ & ->)]; [congruence|exact Hrows].
Qed.

(** X: with the server's private key never written, the run of the example
    stops with [IOError]. *)
Lemma run_missing_copy_source_witness :
  res_of (body cmds_server_key_lost example_target example_args (example_world [] [] true)) =
    Raise (PyExc IOError).
Proof.
  apply (run_missing_copy_source cmds_server_key_lost example_target example_args
           (example_world [] [] true)
           (ca_dir example_target ++ ["out-priv"; "server-priv.pem"])
           (server_dir example_target ++ ["config"; "repo"; "zs-priv-key.pem"])).
  - apply ServerAbort.cmds_server_key_lost_well_behaved.
  - vm_compute. tauto.
Defined.

(** X: the number the quickstart writes into a cluster name is read back
    unchanged by the code that computes the next one ([name.split("#")]
    and [int(id)]), for every integer and every prefix without ['#']. *)
Theorem cluster_name_suffix_roundtrip (P : string) (n : Z) :
  str_mem "#" P = false -> name_suffix (cluster_name_of P n) = Ok n.
Proof.
  intros HP. unfold name_suffix. rewrite NextName.split_cluster_name by exact HP.
  apply StringFacts.py_int_format_int.
Qed.

(** X: [ZatoQuickstartCluster-#-7] reads back as [-7]. *)
Lemma cluster_name_suffix_roundtrip_witness :
  name_suffix (cluster_name_of quickstart_prefix (-7)) = Ok (-7).
Proof. apply cluster_name_suffix_roundtrip. reflexivity. Defined.

(** X: with commands that keep to their directories, a run whose body
    completes started from an existing target directory without a [ca]
    entry, and leaves the directories [ca], [security-server],
    [load-balancer], [server] and [zato-admin] in it. *)
Theorem run_success_layout (cmds : sub_commands) (t : path) (a : args) (w : world) :
  well_behaved cmds ->
  res_of (body cmds t a w) = Ok tt ->
  fs_get (fs w) t = Some NDir /\
  fs_get (fs w) (t ++ ["ca"]) = None /\
  forall x, In x ["ca"; "security-server"; "load-balancer"; "server"; "zato-admin"] ->
    fs_get (fs (world_of (execute cmds t a w))) (t ++ [x]) = Some NDir.
Proof.
  intros Hwb Hok.
  assert (Hp : res_of (ping_phase a w) = Ok tt).
  { destruct (res_of (ping_phase a w)) as [[]|e] eqn:Ep; [reflexivity|].
    rewrite (Phases.body_ping_raise cmds t a w e Ep) in Hok. congruence. }
  split; [|split].
  - destruct (decide (fs_get (fs w) t = Some NDir)) as [H|Hn]; [exact H|].
    destruct (WholeRun.body_blocked cmds t Hwb a w Hp (or_intror Hn)) as ((e & He) & _).
    congruence.
  - destruct (fs_get (fs w) (t ++ ["ca"])) eqn:Hc; [|reflexivity].
    assert (Hn : fs_get (fs w) (ca_dir t) <> None) by (unfold ca_dir; congruence).
    destruct (WholeRun.body_blocked cmds t Hwb a w Hp (or_introl Hn)) as ((e & He) & _).
    congruence.
  - unfold execute. rewrite RunFacts.handle_world.
    destruct (WholeRun.body_cases cmds t Hwb a w)
      as [[(e & He) _] | (Hpr & _ & _ & ->)]; [congruence|].
    rewrite WholeRun.setup_fs.
    destruct (WholeRun.ensures_provision cmds t Hwb a w tt Hpr)
      as (H1 & H2 & H3 & H4 & H5).
    intros x Hx. repeat destruct Hx as [<-|Hx]; try contradiction; assumption.
Qed.

(** X: the example run from an empty target leaves the five directories. *)
Lemma run_success_layout_witness :
  fs_get (fs (world_of (execute spec_cmds example_target example_args
                          (example_world [] [] true))))
    (example_target ++ ["zato-admin"]) = Some NDir.
Proof.
  apply (run_success_layout spec_cmds example_target example_args (example_world [] [] true)).
  - apply WholeRun.spec_cmds_well_behaved.
  - vm_compute. reflexivity.
  - simpl. tauto.
Defined.
